(** * metabase-mcp-server: the three tool endpoints of src/server.js

    A shallow embedding of [src/server.js]: the JSON values the handlers
    receive and return, the JavaScript coercions they rely on
    (truthiness, [String(..)], property reads, optional chaining,
    [trim], [split], [join]), the process configuration read from the
    environment, the outbound calls made through axios, and the four
    route handlers.

    A handler is a function of the process environment and of the
    request as the body parser leaves it.  It runs against a runtime
    that says how each outbound call settles, and yields the answer
    together with the outbound calls issued, in order.  The middleware
    in front of the handlers (CORS, the JSON body parser, the access
    log) and the [console] output are left out: they do not change what
    a handler answers. *)

From Stdlib Require Import ZArith List String Ascii Bool Lia.
From Stdlib Require Import DecimalString.
Import ListNotations.
Local Open Scope string_scope.
Local Open Scope Z_scope.
Set Warnings "-register-all".

(* ===================================================================== *)
(** ** JavaScript values *)
(* ===================================================================== *)

(** The values that occur in a parsed JSON body, in an upstream payload
    and in an object handed to [res.json], plus [undefined] for a
    property that is not there.  Numbers are the integer-valued ones
    of magnitude at most 2^53, whose string form is their decimal
    digits (identifiers are integers; [-0] and [0] coincide; a larger
    or a fractional number has no value here).  Strings
    are their UTF-8 bytes.  An object is the list of its own properties
    in insertion order; a read returns the first binding of the key. *)
Inductive JsValue : Type :=
| JUndefined
| JNull
| JBool (b : bool)
| JNum (n : Z)
| JStr (s : string)
| JArr (items : list JsValue)
| JObj (props : list (string * JsValue)).

(** What a piece of handler code can end with: a value, or a thrown
    error.  *)
Inductive TypeErrorSite : Type :=
| CannotConvertToPrimitive
| CannotReadProperty (of_value : JsValue) (key : string)
| NotAFunction (callee : string).

(** A thrown error.  [JsErr name message response_data] is an [Error]
    (or axios error) object with its [name], its [message] and
    [err.response?.data] ([JUndefined] when the error carries no
    response).  [TypeErr site] is a [TypeError] raised by the engine
    itself; its message text is the engine's. *)
Inductive JsError : Type :=
| JsErr (name message : string) (response_data : JsValue)
| TypeErr (site : TypeErrorSite).

Inductive Outcome (A : Type) : Type :=
| Return (a : A)
| Throw (e : JsError).
Arguments Return {A} a.
Arguments Throw {A} e.

Definition obind {A B} (o : Outcome A) (k : A -> Outcome B) : Outcome B :=
  match o with
  | Return a => k a
  | Throw e => Throw e
  end.

Notation "'let?' x ':=' o 'in' k" := (obind o (fun x => k))
  (at level 10, x name, o at level 100, k at level 200).

(** [!v] is [negb (truthy v)].  Falsy: [undefined], [null], [false],
    [0], the empty string.  Arrays and objects are truthy. *)
Definition truthy (v : JsValue) : bool :=
  match v with
  | JUndefined | JNull => false
  | JBool b => b
  | JNum n => negb (n =? 0)
  | JStr s => negb (s =? "")%string
  | JArr _ | JObj _ => true
  end.

Definition nullish (v : JsValue) : bool :=
  match v with
  | JUndefined | JNull => true
  | _ => false
  end.

(** [a || b] on values. *)
Definition js_or (a b : JsValue) : JsValue := if truthy a then a else b.

Fixpoint lookup (k : string) (props : list (string * JsValue)) : JsValue :=
  match props with
  | [] => JUndefined
  | (k', v) :: rest => if (k =? k')%string then v else lookup k rest
  end.

Fixpoint has_key (k : string) (props : list (string * JsValue)) : bool :=
  match props with
  | [] => false
  | (k', _) :: rest => (k =? k')%string || has_key k rest
  end.

(** Decimal form of an integer-valued number of magnitude at most
    2^53 (beyond that the engine prints the shortest digits that read
    back as the same number, and an exponent from 10^21 on). *)
Definition number_to_string (n : Z) : string :=
  NilZero.string_of_int (Z.to_int n).

(** [Array.prototype.join]: [undefined] and [null] elements give the
    empty string, any other element its string form. *)
Section Join.

Variable elem : JsValue -> Outcome string.

Definition join_elem (v : JsValue) : Outcome string :=
  if nullish v then Return "" else elem v.

Fixpoint join_with (sep : string) (l : list JsValue) : Outcome string :=
  match l with
  | [] => Return ""
  | x :: rest =>
      let? sx := join_elem x in
      match rest with
      | [] => Return sx
      | _ :: _ =>
          let? sr := join_with sep rest in
          Return (sx ++ sep ++ sr)
      end
  end.

End Join.

(** [String(v)], also the conversion a template literal applies.  An
    array is its elements joined by a comma.  A plain object is
    ["[object Object]"] through [Object.prototype.toString]; when the
    object has an own property [toString] (a JSON value, so not
    callable) no conversion method yields a primitive and the engine
    throws. *)
Fixpoint js_String (v : JsValue) : Outcome string :=
  match v with
  | JUndefined => Return "undefined"
  | JNull => Return "null"
  | JBool true => Return "true"
  | JBool false => Return "false"
  | JNum n => Return (number_to_string n)
  | JStr s => Return s
  | JArr items =>
      (fix join (l : list JsValue) : Outcome string :=
         match l with
         | [] => Return ""
         | x :: rest =>
             let? sx := (if nullish x then Return "" else js_String x) in
             match rest with
             | [] => Return sx
             | _ :: _ => let? sr := join rest in Return (sx ++ "," ++ sr)
             end
         end) items
  | JObj props =>
      if has_key "toString" props
      then Throw (TypeErr CannotConvertToPrimitive)
      else Return "[object Object]"
  end.

(* ===================================================================== *)
(** ** Strings *)
(* ===================================================================== *)

Definition code (c : ascii) : Z := Z.of_N (N_of_ascii c).

(** The code points [String.prototype.trim] removes (WhiteSpace and
    LineTerminator of the language), by the length of their UTF-8
    form: U+0009..U+000D and U+0020; U+00A0; U+1680, U+2000..U+200A,
    U+2028, U+2029, U+202F, U+205F, U+3000 and U+FEFF. *)
Definition is_ws1 (b : Z) : bool :=
  ((9 <=? b) && (b <=? 13)) || (b =? 32).

Definition is_ws2 (b1 b2 : Z) : bool :=
  (b1 =? 194) && (b2 =? 160).

Definition is_ws3 (b1 b2 b3 : Z) : bool :=
  ((b1 =? 225) && (b2 =? 154) && (b3 =? 128))
  || ((b1 =? 226) && (b2 =? 128)
      && (((128 <=? b3) && (b3 <=? 138)) || (b3 =? 168) || (b3 =? 169) || (b3 =? 175)))
  || ((b1 =? 226) && (b2 =? 129) && (b3 =? 159))
  || ((b1 =? 227) && (b2 =? 128) && (b3 =? 128))
  || ((b1 =? 239) && (b2 =? 187) && (b3 =? 191)).

(** Drops white space from the front of a byte list.  With [back] the
    list is a reversed string, so a multi-byte code point is met last
    byte first. *)
Fixpoint strip_ws (back : bool) (l : list ascii) : list ascii :=
  match l with
  | [] => []
  | c1 :: r1 =>
      if is_ws1 (code c1) then strip_ws back r1
      else
        match r1 with
        | [] => l
        | c2 :: r2 =>
            if (if back then is_ws2 (code c2) (code c1) else is_ws2 (code c1) (code c2))
            then strip_ws back r2
            else
              match r2 with
              | [] => l
              | c3 :: r3 =>
                  if (if back then is_ws3 (code c3) (code c2) (code c1)
                      else is_ws3 (code c1) (code c2) (code c3))
                  then strip_ws back r3
                  else l
              end
        end
  end.

(** [s.trim()] *)
Definition trim (s : string) : string :=
  string_of_list_ascii
    (rev (strip_ws true (rev (strip_ws false (list_ascii_of_string s))))).

(** [s.split(sep)] for a one-character separator. *)
Fixpoint split (sep : ascii) (s : string) : list string :=
  match s with
  | EmptyString => [""%string]
  | String c r =>
      if Ascii.eqb c sep then ""%string :: split sep r
      else
        match split sep r with
        | h :: t => String c h :: t
        | [] => [String c ""]
        end
  end.

(** [s.replace(/\/$/, "")]: one slash at the very end is removed. *)
Fixpoint strip_trailing_slash (s : string) : string :=
  match s with
  | EmptyString => EmptyString
  | String c r =>
      if (r =? "")%string && Ascii.eqb c "/" then EmptyString
      else String c (strip_trailing_slash r)
  end.

(** [s.length]: UTF-16 code units, counted on the UTF-8 bytes.  A
    continuation byte counts for nothing, the lead byte of a four-byte
    form for two. *)
Fixpoint utf16_length (s : string) : Z :=
  match s with
  | EmptyString => 0
  | String c r =>
      let b := code c in
      (if (128 <=? b) && (b <? 192) then 0
       else if 240 <=? b then 2 else 1) + utf16_length r
  end.

(** The bytes of the first code point of a non-empty string. *)
Fixpoint continuation_prefix (s : string) : string :=
  match s with
  | EmptyString => EmptyString
  | String c r =>
      if (128 <=? code c) && (code c <? 192)
      then String c (continuation_prefix r) else EmptyString
  end.

Definition first_char (s : string) : string :=
  match s with
  | EmptyString => EmptyString
  | String c r => String c (continuation_prefix r)
  end.

(* ===================================================================== *)
(** ** Property reads *)
(* ===================================================================== *)

(** [v.k] for the property names the handlers read (none of them is
    defined on a built-in prototype, and none is an array index). *)
Definition js_get (v : JsValue) (k : string) : Outcome JsValue :=
  match v with
  | JUndefined | JNull => Throw (TypeErr (CannotReadProperty v k))
  | JObj props => Return (lookup k props)
  | JArr items =>
      if (k =? "length")%string then Return (JNum (Z.of_nat (List.length items)))
      else Return JUndefined
  | JStr s =>
      if (k =? "length")%string then Return (JNum (utf16_length s))
      else Return JUndefined
  | JBool _ | JNum _ => Return JUndefined
  end.

(** [v[0]].  On a string it is the first character (for a character
    outside the basic plane the engine yields its first surrogate; the
    handlers only read a property of the result, which a string does
    not have). *)
Definition js_get0 (v : JsValue) : Outcome JsValue :=
  match v with
  | JUndefined | JNull => Throw (TypeErr (CannotReadProperty v "0"))
  | JObj props => Return (lookup "0" props)
  | JArr items => Return (hd JUndefined items)
  | JStr s => Return (if (s =? "")%string then JUndefined else JStr (first_char s))
  | JBool _ | JNum _ => Return JUndefined
  end.

(** [v?.k] and [v?.[0]] *)
Definition js_opt_get (v : JsValue) (k : string) : Outcome JsValue :=
  if nullish v then Return JUndefined else js_get v k.

Definition js_opt_get0 (v : JsValue) : Outcome JsValue :=
  if nullish v then Return JUndefined else js_get0 v.

(* ===================================================================== *)
(** ** Process configuration *)
(* ===================================================================== *)

(** The variables of [process.env] that server.js reads; [None] is a
    variable that is not set. *)
Record ProcessEnv : Type := {
  METABASE_URL : option string;
  METABASE_API_KEY : option string;
  OPENAI_API_KEY : option string;
  ALLOWED_DATABASES_var : option string;
  NL_SQL_MODEL : option string
}.

(** Truthiness of an environment variable: set and not empty. *)
Definition env_set (o : option string) : bool :=
  match o with
  | Some s => negb (s =? "")%string
  | None => false
  end.

(** [process.env.X || dflt] *)
Definition env_or (o : option string) (dflt : string) : string :=
  match o with
  | Some s => if (s =? "")%string then dflt else s
  | None => dflt
  end.

Definition nonempty (s : string) : bool := negb (s =? "")%string.

(** [(process.env.ALLOWED_DATABASES || "").split(",").map(trim).filter(Boolean)] *)
Definition ALLOWED_DATABASES (env : ProcessEnv) : list string :=
  filter nonempty (map trim (split "," (env_or (ALLOWED_DATABASES_var env) ""))).

(** [list.includes(s)] on strings *)
Definition includes (l : list string) (s : string) : bool :=
  existsb (String.eqb s) l.

(** The allow-list test of the two handlers that take a [database_id]:
    [ALLOWED_DATABASES.length && !ALLOWED_DATABASES.includes(String(database_id))].
    [Return true] is a refusal; with an empty list the string form is
    never computed. *)
Definition allow_list_denies (allowed : list string) (database_id : JsValue)
  : Outcome bool :=
  if (List.length allowed =? 0)%nat then Return false
  else
    let? s := js_String database_id in
    Return (negb (includes allowed s)).

(* ===================================================================== *)
(** ** Outbound calls and the handler monad *)
(* ===================================================================== *)

Inductive Method : Type := GET | POST.

(** One request given to axios. *)
Record OutCall : Type := {
  call_url : string;
  call_method : Method;
  call_data : JsValue;
  call_headers : list (string * string);
  call_timeout : Z
}.

(** What axios settles with: [resp.data] of a 2xx response, or the
    error it rejects with (no response, or a response outside 2xx). *)
Inductive AxiosResult : Type :=
| Resolved (data : JsValue)
| Rejected (e : JsError).

(** What a run of a handler depends on besides the process
    environment and the request: the answers of the upstreams, and the
    engine's wording of its own [TypeError] messages. *)
Record Runtime : Type := {
  axios : OutCall -> AxiosResult;
  type_error_message : TypeErrorSite -> string
}.

(** A computation reads the runtime, appends the calls it issues to
    the trace, and ends with a value or a thrown error. *)
Definition M (A : Type) : Type :=
  Runtime -> list OutCall -> Outcome A * list OutCall.

Definition ret {A} (a : A) : M A := fun _ tr => (Return a, tr).

Definition throw {A} (e : JsError) : M A := fun _ tr => (Throw e, tr).

Definition bind {A B} (m : M A) (k : A -> M B) : M B :=
  fun rt tr =>
    match m rt tr with
    | (Return a, tr') => k a rt tr'
    | (Throw e, tr') => (Throw e, tr')
    end.

Definition lift {A} (o : Outcome A) : M A := fun _ tr => (o, tr).

(** [try { m } catch (err) { h err }] *)
Definition try_catch {A} (m : M A) (h : JsError -> M A) : M A :=
  fun rt tr =>
    match m rt tr with
    | (Return a, tr') => (Return a, tr')
    | (Throw e, tr') => h e rt tr'
    end.

(** [await axios.request(c)]: the call goes out, then resolves or
    rejects. *)
Definition axios_request (c : OutCall) : M JsValue :=
  fun rt tr =>
    match axios rt c with
    | Resolved d => (Return d, (tr ++ [c])%list)
    | Rejected e => (Throw e, (tr ++ [c])%list)
    end.

Declare Scope handler_scope.
Delimit Scope handler_scope with handler.
Notation "x <- m ;; k" := (bind m (fun x => k))
  (at level 61, m at next level, right associativity) : handler_scope.
Local Open Scope handler_scope.

(** [String(err.message || err)]: the message, or for an empty message
    [Error.prototype.toString], which is then the error's name. *)
Definition error_text (rt : Runtime) (err : JsError) : string :=
  match err with
  | JsErr name message _ => if nonempty message then message else name
  | TypeErr site =>
      let message := type_error_message rt site in
      if nonempty message then message else "TypeError"
  end.

(** [err.response?.data] *)
Definition error_response_data (err : JsError) : JsValue :=
  match err with
  | JsErr _ _ d => d
  | TypeErr _ => JUndefined
  end.

(** An answer: the status code and the object given to [res.json]
    (its serialisation leaves out a property whose value is
    [undefined]). *)
Record Response : Type := {
  status : Z;
  body : JsValue
}.

(** [res.status(code).json(b)]; [res.json(b)] is [json 200 b]. *)
Definition json (code : Z) (b : JsValue) : Response :=
  {| status := code; body := b |}.

Record Request : Type := {
  req_method : Method;
  req_path : string;
  req_body : JsValue
}.

Definition not_configured : JsError :=
  JsErr "Error" "Metabase not configured (METABASE_URL / METABASE_API_KEY)." JUndefined.

(** The request [callMetabase] hands to axios. *)
Definition metabase_call (env : ProcessEnv) (path : string) (method : Method)
  (data : JsValue) : OutCall :=
  {| call_url := strip_trailing_slash (env_or (METABASE_URL env) "") ++ path;
     call_method := method;
     call_data := data;
     call_headers :=
       [("Content-Type", "application/json");
        ("X-Metabase-Session", env_or (METABASE_API_KEY env) "")];
     call_timeout := 30000 |}.

(** [callMetabase(path, method, data)] *)
Definition callMetabase (env : ProcessEnv) (path : string) (method : Method)
  (data : JsValue) : M JsValue :=
  if negb (env_set (METABASE_URL env)) || negb (env_set (METABASE_API_KEY env))
  then throw not_configured
  else axios_request (metabase_call env path method data).

(* ===================================================================== *)
(** ** GET /health *)
(* ===================================================================== *)

Definition health (req : Request) : M Response :=
  ret (json 200 (JObj [("ok", JBool true); ("service", JStr "metabase-mcp-server")])).

(* ===================================================================== *)
(** ** POST /natural_language_to_sql *)
(* ===================================================================== *)

Definition nl : string := String (ascii_of_nat 10) EmptyString.

(** [v.join(sep)] as a method call: only an array has the method. *)
Definition js_join (callee : string) (v : JsValue) (sep : string) : Outcome string :=
  match v with
  | JArr items => join_with js_String sep items
  | _ => Throw (TypeErr (NotAFunction callee))
  end.

(** [v?.trim()] *)
Definition js_opt_trim (callee : string) (v : JsValue) : Outcome JsValue :=
  match v with
  | JUndefined | JNull => Return JUndefined
  | JStr s => Return (JStr (trim s))
  | _ => Throw (TypeErr (NotAFunction callee))
  end.

Definition schema_hint_line (schema_hint : JsValue) : Outcome string :=
  if truthy schema_hint
  then let? s := js_String schema_hint in Return ("SCHEMA HINT:" ++ nl ++ s)
  else Return "".

Definition table_hints_line (table_hints : JsValue) : Outcome string :=
  if truthy table_hints
  then
    let? len := js_get table_hints "length" in
    if truthy len
    then
      let? joined := js_join "table_hints.join" table_hints ", " in
      Return ("TABLE HINTS: " ++ joined)
    else Return ""
  else Return "".

Definition systemPrompt (schema_hint table_hints : JsValue) : Outcome string :=
  let? schema_line := schema_hint_line schema_hint in
  let? tables_line := table_hints_line table_hints in
  Return
    (String.concat nl
       (filter nonempty
          ["You are a SQL assistant for Metabase, generating safe, read-only SQL for PostgreSQL.";
           "RULES:";
           "- Only use SELECT statements (no INSERT/UPDATE/DELETE/ALTER/DROP).";
           "- Prefer existing tables and columns from the hints.";
           "- Do not guess table names beyond the hints; if unsure, say you are unsure.";
           "";
           schema_line;
           tables_line])).

Definition openai_payload (env : ProcessEnv) (prompt : string) (text : JsValue)
  : JsValue :=
  JObj
    [("model", JStr (env_or (NL_SQL_MODEL env) "gpt-4.1-mini"));
     ("messages",
       JArr
         [JObj [("role", JStr "system"); ("content", JStr prompt)];
          JObj [("role", JStr "user"); ("content", text)]])].

Definition openai_call (env : ProcessEnv) (payload : JsValue) : OutCall :=
  {| call_url := "https://api.openai.com/v1/chat/completions";
     call_method := POST;
     call_data := payload;
     call_headers :=
       [("Authorization", "Bearer " ++ env_or (OPENAI_API_KEY env) "");
        ("Content-Type", "application/json")];
     call_timeout := 30000 |}.

(** [data.choices?.[0]?.message?.content] *)
Definition completion_content (data : JsValue) : Outcome JsValue :=
  let? choices := js_get data "choices" in
  let? first := js_opt_get0 choices in
  let? message := js_opt_get first "message" in
  js_opt_get message "content".

Definition trim_callee : string :=
  "openaiResp.data.choices?.[0]?.message?.content?.trim".

Definition natural_language_to_sql (env : ProcessEnv) (req : Request) : M Response :=
  try_catch
    (let b := js_or (req_body req) (JObj []) in
     text <- lift (js_get b "text") ;;
     database_id <- lift (js_get b "database_id") ;;
     schema_hint <- lift (js_get b "schema_hint") ;;
     table_hints <- lift (js_get b "table_hints") ;;
     if negb (truthy text) || negb (truthy database_id)
     then ret (json 400 (JObj [("error", JStr "text and database_id are required")]))
     else
       denied <- lift (allow_list_denies (ALLOWED_DATABASES env) database_id) ;;
       if (denied : bool)
       then ret (json 400 (JObj [("error", JStr "database_id not allowed")]))
       else
         if negb (env_set (OPENAI_API_KEY env))
         then ret (json 500 (JObj [("error", JStr "OPENAI_API_KEY not set on server")]))
         else
           prompt <- lift (systemPrompt schema_hint table_hints) ;;
           data <- axios_request (openai_call env (openai_payload env prompt text)) ;;
           content <- lift (completion_content data) ;;
           sql <- lift (js_opt_trim trim_callee content) ;;
           if negb (truthy sql)
           then ret (json 500 (JObj [("error", JStr "No SQL generated")]))
           else ret (json 200 (JObj [("sql", sql); ("database_id", database_id)])))
    (fun err rt =>
       ret (json 500
              (JObj [("error", JStr "natural_language_to_sql failed");
                     ("details", JStr (error_text rt err))])) rt).

(* ===================================================================== *)
(** ** POST /create_question *)
(* ===================================================================== *)

Definition card_payload (name sql database_id : JsValue) : JsValue :=
  JObj
    [("name", name);
     ("display", JStr "table");
     ("dataset_query",
       JObj
         [("type", JStr "native");
          ("native", JObj [("query", sql)]);
          ("database", database_id)])].

(** [card.public_uuid ? `/public/question/${card.public_uuid}` : `/question/${card.id}`] *)
Definition question_url (card : JsValue) : Outcome string :=
  let? public_uuid := js_get card "public_uuid" in
  if truthy public_uuid
  then let? s := js_String public_uuid in Return ("/public/question/" ++ s)
  else
    let? id := js_get card "id" in
    let? s := js_String id in
    Return ("/question/" ++ s).

(** [details: err.response?.data || String(err.message || err)] *)
Definition failure_details (rt : Runtime) (err : JsError) : JsValue :=
  js_or (error_response_data err) (JStr (error_text rt err)).

Definition create_question (env : ProcessEnv) (req : Request) : M Response :=
  try_catch
    (let b := js_or (req_body req) (JObj []) in
     name <- lift (js_get b "name") ;;
     sql <- lift (js_get b "sql") ;;
     database_id <- lift (js_get b "database_id") ;;
     if negb (truthy name) || negb (truthy sql) || negb (truthy database_id)
     then ret (json 400 (JObj [("error", JStr "name, sql, database_id are required")]))
     else
       denied <- lift (allow_list_denies (ALLOWED_DATABASES env) database_id) ;;
       if (denied : bool)
       then ret (json 400 (JObj [("error", JStr "database_id not allowed")]))
       else
         card <- callMetabase env "/api/card" POST (card_payload name sql database_id) ;;
         id <- lift (js_get card "id") ;;
         card_name <- lift (js_get card "name") ;;
         url <- lift (question_url card) ;;
         ret (json 200
                (JObj [("question_id", id); ("name", card_name); ("url", JStr url)])))
    (fun err rt =>
       ret (json 500
              (JObj [("error", JStr "create_question failed");
                     ("details", failure_details rt err)])) rt).

(* ===================================================================== *)
(** ** POST /get_question_results *)
(* ===================================================================== *)

Definition query_path (question_id : JsValue) : Outcome string :=
  let? s := js_String question_id in
  Return ("/api/card/" ++ s ++ "/query").

Definition get_question_results (env : ProcessEnv) (req : Request) : M Response :=
  try_catch
    (let b := js_or (req_body req) (JObj []) in
     question_id <- lift (js_get b "question_id") ;;
     if negb (truthy question_id)
     then ret (json 400 (JObj [("error", JStr "question_id is required")]))
     else
       path <- lift (query_path question_id) ;;
       data <- callMetabase env path POST (JObj [("parameters", JArr [])]) ;;
       inner_c <- lift (js_opt_get data "data") ;;
       cols <- lift (js_opt_get inner_c "cols") ;;
       inner_r <- lift (js_opt_get data "data") ;;
       rows <- lift (js_opt_get inner_r "rows") ;;
       ret (json 200
              (JObj [("cols", js_or cols (JArr []));
                     ("rows", js_or rows (JArr []));
                     ("raw", data)])))
    (fun err rt =>
       ret (json 500
              (JObj [("error", JStr "get_question_results failed");
                     ("details", failure_details rt err)])) rt).

(* ===================================================================== *)
(** ** The routes *)
(* ===================================================================== *)

Definition lower (c : ascii) : ascii :=
  if (65 <=? code c) && (code c <=? 90)
  then ascii_of_N (N_of_ascii c + 32)
  else c.

Fixpoint lowercase (s : string) : string :=
  match s with
  | EmptyString => EmptyString
  | String c r => String (lower c) (lowercase r)
  end.

(** Express matches a route path without regard to letter case and
    with an optional slash at the end. *)
Definition path_matches (route path : string) : bool :=
  let p := lowercase path in
  (p =? route)%string || (p =? route ++ "/")%string.

(** The handler a request is routed to, if server.js registers one for
    its method and path. *)
Definition app (env : ProcessEnv) (req : Request) : option (M Response) :=
  match req_method req with
  | GET =>
      if path_matches "/health" (req_path req) then Some (health req) else None
  | POST =>
      if path_matches "/natural_language_to_sql" (req_path req)
      then Some (natural_language_to_sql env req)
      else if path_matches "/create_question" (req_path req)
      then Some (create_question env req)
      else if path_matches "/get_question_results" (req_path req)
      then Some (get_question_results env req)
      else None
  end.

(** A run of a handler from an empty trace: the response (or an error
    that escaped) and the outbound calls issued, in order. *)
Definition run {A} (m : M A) (rt : Runtime) : Outcome A * list OutCall := m rt [].

(* ===================================================================== *)
(** ** Reading the model *)
(* ===================================================================== *)

(** [v.k] where the read cannot throw. *)
Definition prop (v : JsValue) (k : string) : JsValue :=
  match js_get v k with
  | Return x => x
  | Throw _ => JUndefined
  end.

(** [v?.k] as a value. *)
Definition opt_prop (v : JsValue) (k : string) : JsValue :=
  if nullish v then JUndefined else prop v k.

(** The value a handler's destructuring of [req.body || {}] binds to
    the name [k]. *)
Definition body_field (req : Request) (k : string) : JsValue :=
  prop (js_or (req_body req) (JObj [])) k.

(** The four falsy values a JSON body can carry. *)
Definition falsy_json (v : JsValue) : Prop :=
  v = JNum 0 \/ v = JStr "" \/ v = JBool false \/ v = JNull.

(** The filter lets the identifier through. *)
Definition permits (allowed : list string) (database_id : JsValue) : Prop :=
  allow_list_denies allowed database_id = Return false.

Definition denies (allowed : list string) (database_id : JsValue) : Prop :=
  allow_list_denies allowed database_id = Return true.

Definition error_body (msg : string) : JsValue := JObj [("error", JStr msg)].

Definition failure_body (msg : string) (details : JsValue) : JsValue :=
  JObj [("error", JStr msg); ("details", details)].

(** Both analytics credentials are set. *)
Definition metabase_configured (env : ProcessEnv) : bool :=
  env_set (METABASE_URL env) && env_set (METABASE_API_KEY env).

(** [data.choices?.[0]] and [data.choices?.[0]?.message?.content] as
    values, for a payload that is not [null] or [undefined]. *)
Definition first_completion (data : JsValue) : JsValue :=
  match js_opt_get0 (prop data "choices") with
  | Return v => v
  | Throw _ => JUndefined
  end.

Definition completion_text (data : JsValue) : JsValue :=
  opt_prop (opt_prop (first_completion data) "message") "content".

(** The fields of a fetch-results success, read off the upstream
    payload. *)
Definition result_cols (data : JsValue) : JsValue :=
  js_or (opt_prop (opt_prop data "data") "cols") (JArr []).

Definition result_rows (data : JsValue) : JsValue :=
  js_or (opt_prop (opt_prop data "data") "rows") (JArr []).

(** The card the create handler builds from the fields of a request. *)
Definition request_card (req : Request) : JsValue :=
  card_payload (body_field req "name") (body_field req "sql")
    (body_field req "database_id").

(** The creation call of a request. *)
Definition creation_call (env : ProcessEnv) (req : Request) : OutCall :=
  metabase_call env "/api/card" POST (request_card req).

(** What the [catch] block of a handler makes of a thrown error. *)
Definition recover (msg : string) (rt : Runtime) (o : Outcome Response) : Response :=
  match o with
  | Return r => r
  | Throw e => json 500 (failure_body msg (failure_details rt e))
  end.

(** The answer of the create handler once the card is back. *)
Definition question_ref (card : JsValue) : Outcome Response :=
  let? id := js_get card "id" in
  let? card_name := js_get card "name" in
  let? url := question_url card in
  Return (json 200 (JObj [("question_id", id); ("name", card_name); ("url", JStr url)])).

(** The answer of the fetch handler once the payload is back. *)
Definition result_set (data : JsValue) : Response :=
  json 200
    (JObj [("cols", result_cols data); ("rows", result_rows data); ("raw", data)]).

(** The one call a fetch of question [s] makes. *)
Definition query_call (env : ProcessEnv) (s : string) : OutCall :=
  metabase_call env ("/api/card/" ++ s ++ "/query") POST
    (JObj [("parameters", JArr [])]).

(** What the [catch] block of the translate handler answers. *)
Definition translate_failure (rt : Runtime) (e : JsError) : Response :=
  json 500 (failure_body "natural_language_to_sql failed" (JStr (error_text rt e))).

(** The answer of the translate handler once the completion is back. *)
Definition translation (data database_id : JsValue) : Outcome Response :=
  let? content := completion_content data in
  let? sql := js_opt_trim trim_callee content in
  Return
    (if negb (truthy sql)
     then json 500 (error_body "No SQL generated")
     else json 200 (JObj [("sql", sql); ("database_id", database_id)])).

(** The system prompt of a request and the completion call made with
    it. *)
Definition request_prompt (req : Request) : Outcome string :=
  systemPrompt (body_field req "schema_hint") (body_field req "table_hints").

Definition completion_call (env : ProcessEnv) (prompt : string) (req : Request)
  : OutCall :=
  openai_call env (openai_payload env prompt (body_field req "text")).

(** The fetch handler issues exactly one call, a query execution with
    an empty parameter set. *)
Definition issues_one_query_call (env : ProcessEnv) (rt : Runtime) (req : Request)
  : Prop :=
  exists c : OutCall,
    snd (run (get_question_results env req) rt) = [c]
    /\ call_data c = JObj [("parameters", JArr [])].

(** The [cols] of the fetch handler's answer are the payload's
    [data.cols]. *)
Definition cols_are_upstream_cols (env : ProcessEnv) (rt : Runtime) (req : Request)
  (data : JsValue) : Prop :=
  exists resp : Response,
    fst (run (get_question_results env req) rt) = Return resp
    /\ prop (body resp) "cols" = prop (prop data "data") "cols".

(** Two environments that agree on everything but the allow-list. *)
Definition same_but_allow_list (env1 env2 : ProcessEnv) : Prop :=
  METABASE_URL env1 = METABASE_URL env2
  /\ METABASE_API_KEY env1 = METABASE_API_KEY env2
  /\ OPENAI_API_KEY env1 = OPENAI_API_KEY env2
  /\ NL_SQL_MODEL env1 = NL_SQL_MODEL env2.

(** Two environments that agree on everything but the analytics
    credentials. *)
Definition same_but_metabase (env1 env2 : ProcessEnv) : Prop :=
  OPENAI_API_KEY env1 = OPENAI_API_KEY env2
  /\ ALLOWED_DATABASES_var env1 = ALLOWED_DATABASES_var env2
  /\ NL_SQL_MODEL env1 = NL_SQL_MODEL env2.

(** The list starts with a white-space code point ([back]: the list is
    a reversed string). *)
Definition starts_ws (back : bool) (l : list ascii) : bool :=
  match l with
  | [] => false
  | c1 :: r1 =>
      is_ws1 (code c1)
      || match r1 with
         | [] => false
         | c2 :: r2 =>
             (if back then is_ws2 (code c2) (code c1) else is_ws2 (code c1) (code c2))
             || match r2 with
                | [] => false
                | c3 :: _ =>
                    if back then is_ws3 (code c3) (code c2) (code c1)
                    else is_ws3 (code c1) (code c2) (code c3)
                end
         end
  end.

(** Two environments that agree on the analytics credentials and on
    the allow-list. *)
Definition same_for_analytics (env1 env2 : ProcessEnv) : Prop :=
  METABASE_URL env1 = METABASE_URL env2
  /\ METABASE_API_KEY env1 = METABASE_API_KEY env2
  /\ ALLOWED_DATABASES_var env1 = ALLOWED_DATABASES_var env2.

(** The fixed lines every system prompt opens with. *)
Definition rules_block : string :=
  String.concat nl
    ["You are a SQL assistant for Metabase, generating safe, read-only SQL for PostgreSQL.";
     "RULES:";
     "- Only use SELECT statements (no INSERT/UPDATE/DELETE/ALTER/DROP).";
     "- Prefer existing tables and columns from the hints.";
     "- Do not guess table names beyond the hints; if unsure, say you are unsure."].

(** The address of the completion endpoint. *)
Definition completions_url : string := "https://api.openai.com/v1/chat/completions".

(* ===================================================================== *)
(** ** Sample configurations, runtimes and requests *)
(* ===================================================================== *)

(** Everything configured, database 2 allow-listed. *)
Definition env_sample : ProcessEnv :=
  {| METABASE_URL := Some "https://metabase.example.com/";
     METABASE_API_KEY := Some "mb-key";
     OPENAI_API_KEY := Some "sk-key";
     ALLOWED_DATABASES_var := Some "2";
     NL_SQL_MODEL := None |}.

(** The same with database 3 allow-listed instead. *)
Definition env_sample_db3 : ProcessEnv :=
  {| METABASE_URL := Some "https://metabase.example.com/";
     METABASE_API_KEY := Some "mb-key";
     OPENAI_API_KEY := Some "sk-key";
     ALLOWED_DATABASES_var := Some "3";
     NL_SQL_MODEL := None |}.

(** No language-model key. *)
Definition env_no_openai : ProcessEnv :=
  {| METABASE_URL := Some "https://metabase.example.com/";
     METABASE_API_KEY := Some "mb-key";
     OPENAI_API_KEY := None;
     ALLOWED_DATABASES_var := Some "2";
     NL_SQL_MODEL := None |}.

(** No analytics base URL and no analytics key. *)
Definition env_no_metabase : ProcessEnv :=
  {| METABASE_URL := None;
     METABASE_API_KEY := None;
     OPENAI_API_KEY := Some "sk-key";
     ALLOWED_DATABASES_var := Some "2";
     NL_SQL_MODEL := None |}.

(** A runtime whose upstreams answer every call with [data]. *)
Definition rt_answering (data : JsValue) : Runtime :=
  {| axios := fun _ => Resolved data;
     type_error_message := fun _ => "TypeError" |}.

Definition post (path : string) (b : JsValue) : Request :=
  {| req_method := POST; req_path := path; req_body := b |}.

Definition translate_request (database_id : JsValue) : Request :=
  post "/natural_language_to_sql"
    (JObj [("text", JStr "Monthly invoice totals for 2024");
           ("database_id", database_id)]).

Definition create_request (database_id : JsValue) : Request :=
  post "/create_question"
    (JObj [("name", JStr "Q1"); ("sql", JStr "SELECT 1");
           ("database_id", database_id)]).

Definition results_request (question_id : JsValue) : Request :=
  post "/get_question_results" (JObj [("question_id", question_id)]).

Definition sample_card : JsValue :=
  JObj [("id", JNum 7); ("name", JStr "Q1"); ("public_uuid", JNull)].

Definition sample_completion : JsValue :=
  JObj [("choices",
          JArr [JObj [("message",
                        JObj [("role", JStr "assistant");
                              ("content", JStr "  SELECT 1  ")])]])].

(** The prompt built for [translate_request]: no hints, so the fixed
    instruction lines alone. *)
Definition sample_prompt : string :=
  match request_prompt (translate_request (JNum 2)) with
  | Return p => p
  | Throw _ => ""
  end.

(** A completion payload with no choice in it. *)
Definition empty_completion : JsValue := JObj [("choices", JArr [])].

(** An upstream payload without [data.cols] and [data.rows]. *)
Definition payload_without_table : JsValue :=
  JObj [("status", JStr "completed"); ("data", JObj [])].

(** An upstream payload whose [data.cols] is there and is [0]. *)
Definition payload_cols_zero : JsValue :=
  JObj [("data", JObj [("cols", JNum 0); ("rows", JArr [])])].

(** A runtime whose upstreams reject every call with [e]. *)
Definition rt_rejecting (e : JsError) : Runtime :=
  {| axios := fun _ => Rejected e;
     type_error_message := fun _ => "TypeError" |}.

(** The error axios rejects with on a 403 answer carrying a body. *)
Definition sample_rejection : JsError :=
  JsErr "AxiosError" "Request failed with status code 403"
    (JObj [("message", JStr "Forbidden")]).

(** The error axios rejects with when the upstream cannot be reached. *)
Definition sample_unreachable : JsError :=
  JsErr "AxiosError" "timeout of 30000ms exceeded" JUndefined.

(** A translate request carrying [table_hints]. *)
Definition hinted_request (table_hints : JsValue) : Request :=
  post "/natural_language_to_sql"
    (JObj [("text", JStr "Monthly invoice totals for 2024");
           ("database_id", JNum 2);
           ("table_hints", table_hints)]).

Definition sample_question_ref : Response :=
  json 200
    (JObj [("question_id", JNum 7); ("name", JStr "Q1"); ("url", JStr "/question/7")]).

(* ===================================================================== *)
(** ** Basic facts *)
(* ===================================================================== *)

Lemma js_get_not_nullish (v : JsValue) (k : string) :
  nullish v = false -> js_get v k = Return (prop v k).
Proof.
  unfold prop. destruct v; simpl; try discriminate; intros _;
    try reflexivity; destruct (k =? "length")%string; reflexivity.
Qed.

Lemma truthy_not_nullish (v : JsValue) : truthy v = true -> nullish v = false.
Proof. destruct v; simpl; intros H; try reflexivity; discriminate. Qed.

Lemma js_or_not_nullish (v : JsValue) : nullish (js_or v (JObj [])) = false.
Proof.
  unfold js_or. destruct (truthy v) eqn:E; [ | reflexivity ].
  now apply truthy_not_nullish.
Qed.

Lemma js_get_body (req : Request) (k : string) :
  js_get (js_or (req_body req) (JObj [])) k = Return (body_field req k).
Proof. apply js_get_not_nullish, js_or_not_nullish. Qed.

Lemma js_opt_get_prop (v : JsValue) (k : string) :
  js_opt_get v k = Return (opt_prop v k).
Proof.
  unfold js_opt_get, opt_prop. destruct (nullish v) eqn:E; [ reflexivity | ].
  now apply js_get_not_nullish.
Qed.

Lemma falsy_json_not_truthy (v : JsValue) : falsy_json v -> truthy v = false.
Proof. intros [-> | [-> | [-> | ->]]]; reflexivity. Qed.

Lemma includes_In (l : list string) (s : string) :
  includes l s = true <-> In s l.
Proof.
  unfold includes. rewrite existsb_exists. split.
  - intros [x [Hin Heq]]. apply String.eqb_eq in Heq. now subst.
  - intros Hin. exists s. split; [ assumption | apply String.eqb_refl ].
Qed.

(** The string form of an array is [join(",")] of its elements. *)
Lemma js_String_array (items : list JsValue) :
  js_String (JArr items) = join_with js_String "," items.
Proof.
  simpl. induction items as [ | x rest IH ]; [ reflexivity | ].
  simpl. unfold join_elem. destruct (if nullish x then _ else _); simpl; [ | reflexivity ].
  destruct rest; [ reflexivity | ]. rewrite IH. reflexivity.
Qed.

(** [strip_ws] only drops a prefix, so [trim] keeps a piece of the
    string it is given. *)
Lemma strip_ws_suffix (back : bool) (l : list ascii) :
  exists pre : list ascii, l = (pre ++ strip_ws back l)%list.
Proof.
  assert (H : forall (n : nat) (l : list ascii),
             (List.length l <= n)%nat ->
             exists pre : list ascii, l = (pre ++ strip_ws back l)%list).
  { induction n as [ | n IH ]; intros l0 Hlen.
    - destruct l0; [ now exists [] | simpl in Hlen; lia ].
    - destruct l0 as [ | c1 r1 ]; [ now exists [] | ].
      simpl in Hlen. cbn [strip_ws].
      destruct (is_ws1 (code c1)).
      + destruct (IH r1) as [pre Hpre]; [ lia | ].
        exists (c1 :: pre). simpl. now rewrite <- Hpre.
      + destruct r1 as [ | c2 r2 ]; [ now exists [] | ].
        simpl in Hlen.
        destruct (if back then is_ws2 (code c2) (code c1)
                  else is_ws2 (code c1) (code c2)).
        * destruct (IH r2) as [pre Hpre]; [ lia | ].
          exists (c1 :: c2 :: pre). simpl. now rewrite <- Hpre.
        * destruct r2 as [ | c3 r3 ]; [ now exists [] | ].
          simpl in Hlen.
          destruct (if back then is_ws3 (code c3) (code c2) (code c1)
                    else is_ws3 (code c1) (code c2) (code c3)).
          -- destruct (IH r3) as [pre Hpre]; [ lia | ].
             exists (c1 :: c2 :: c3 :: pre). simpl. now rewrite <- Hpre.
          -- now exists []. }
  apply (H (List.length l)). lia.
Qed.

Lemma string_of_list_ascii_app (a b : list ascii) :
  string_of_list_ascii (a ++ b)%list
  = string_of_list_ascii a ++ string_of_list_ascii b.
Proof. induction a as [ | c a IH ]; simpl; [ reflexivity | now rewrite IH ]. Qed.

Lemma trim_infix (s : string) :
  exists pre post : string, s = pre ++ trim s ++ post.
Proof.
  unfold trim.
  destruct (strip_ws_suffix false (list_ascii_of_string s)) as [pre Hpre].
  destruct (strip_ws_suffix true (rev (strip_ws false (list_ascii_of_string s))))
    as [post Hpost].
  exists (string_of_list_ascii pre), (string_of_list_ascii (rev post)).
  rewrite <- !string_of_list_ascii_app, <- rev_app_distr, <- Hpost, rev_involutive.
  rewrite <- Hpre. symmetry. apply string_of_list_ascii_of_string.
Qed.

(** No entry of the configured list is empty. *)
Lemma ALLOWED_DATABASES_nonempty_entries (env : ProcessEnv) (s : string) :
  In s (ALLOWED_DATABASES env) -> s <> ""%string.
Proof.
  unfold ALLOWED_DATABASES. intros H. apply filter_In in H. destruct H as [_ H].
  unfold nonempty in H. intros ->. discriminate.
Qed.

Lemma ALLOWED_DATABASES_unset (env : ProcessEnv) :
  env_set (ALLOWED_DATABASES_var env) = false -> ALLOWED_DATABASES env = [].
Proof.
  unfold ALLOWED_DATABASES, env_set, env_or.
  destruct (ALLOWED_DATABASES_var env) as [ s | ]; [ | reflexivity ].
  destruct (s =? "")%string; [ reflexivity | discriminate ].
Qed.

(* ===================================================================== *)
(** ** The allow-list filter *)
(* ===================================================================== *)

(** C1.  With an empty configured list the filter permits every
    candidate.  With a non-empty list it permits a candidate exactly
    when the candidate has a string form and that string is one of the
    entries of the list (equality of strings). *)
Theorem allow_list_filter_spec :
  (forall database_id : JsValue, permits [] database_id)
  /\ (forall (a : string) (rest : list string) (database_id : JsValue),
        permits (a :: rest) database_id
        <-> exists s, js_String database_id = Return s /\ In s (a :: rest)).
Proof.
  split.
  - intros database_id. reflexivity.
  - intros a rest database_id. unfold permits, allow_list_denies.
    change (List.length (a :: rest) =? 0)%nat with false. cbv iota.
    destruct (js_String database_id) as [ s | e ] eqn:E; unfold obind.
    + split.
      * intros H. exists s. split; [ reflexivity | ].
        apply includes_In. injection H as H.
        now apply negb_false_iff in H.
      * intros [s' [Hs Hin]]. injection Hs as <-.
        apply includes_In in Hin. now rewrite Hin.
    + split; [ discriminate | ]. intros [s [Hs _]]. discriminate.
Qed.

(* ===================================================================== *)
(** ** Stepping through a handler *)
(* ===================================================================== *)

Ltac enter_handler h :=
  unfold run, h, try_catch, bind, lift, ret; rewrite ?js_get_body; cbv beta iota.

(* ===================================================================== *)
(** ** GET /health *)
(* ===================================================================== *)

(** C10.  Whatever the process environment, the runtime and the
    request body, GET /health is routed to a handler that answers 200
    with [ok: true] and the service name, and issues no call. *)
Theorem health_always_ok :
  forall (env : ProcessEnv) (rt : Runtime) (b : JsValue),
  exists h : M Response,
    app env {| req_method := GET; req_path := "/health"; req_body := b |} = Some h
    /\ run h rt
       = (Return {| status := 200;
                    body := JObj [("ok", JBool true);
                                  ("service", JStr "metabase-mcp-server")] |},
          []).
Proof.
  intros env rt b. eexists. split; reflexivity.
Qed.

(* ===================================================================== *)
(** ** POST /natural_language_to_sql: validation *)
(* ===================================================================== *)

Lemma translate_missing_fields (env : ProcessEnv) (rt : Runtime) (req : Request) :
  truthy (body_field req "text") = false
  \/ truthy (body_field req "database_id") = false ->
  run (natural_language_to_sql env req) rt
  = (Return (json 400 (error_body "text and database_id are required")), []).
Proof.
  intros H. enter_handler natural_language_to_sql.
  destruct H as [H | H]; rewrite H; simpl; [ reflexivity | ].
  now rewrite orb_true_r.
Qed.

Lemma translate_denied (env : ProcessEnv) (rt : Runtime) (req : Request) :
  truthy (body_field req "text") = true ->
  truthy (body_field req "database_id") = true ->
  denies (ALLOWED_DATABASES env) (body_field req "database_id") ->
  run (natural_language_to_sql env req) rt
  = (Return (json 400 (error_body "database_id not allowed")), []).
Proof.
  intros Ht Hd Hden. enter_handler natural_language_to_sql.
  rewrite Ht, Hd. cbn [negb orb]. unfold denies in Hden. now rewrite Hden.
Qed.

Lemma translate_no_key (env : ProcessEnv) (rt : Runtime) (req : Request) :
  truthy (body_field req "text") = true ->
  truthy (body_field req "database_id") = true ->
  permits (ALLOWED_DATABASES env) (body_field req "database_id") ->
  env_set (OPENAI_API_KEY env) = false ->
  run (natural_language_to_sql env req) rt
  = (Return (json 500 (error_body "OPENAI_API_KEY not set on server")), []).
Proof.
  intros Ht Hd Hper Hkey. enter_handler natural_language_to_sql.
  rewrite Ht, Hd. cbn [negb orb]. unfold permits in Hper. rewrite Hper.
  now rewrite Hkey.
Qed.

(** C2.  The checks of the translate handler come in this order, each
    one ending the request: a falsy [text] or [database_id] gives 400
    "text and database_id are required"; otherwise a refusal by the
    allow-list filter gives 400 "database_id not allowed"; otherwise a
    missing language-model key gives 500.  In each case no outbound
    call is issued. *)
Theorem natural_language_to_sql_validation_order :
  forall (env : ProcessEnv) (rt : Runtime) (req : Request),
    (truthy (body_field req "text") = false
     \/ truthy (body_field req "database_id") = false ->
     run (natural_language_to_sql env req) rt
     = (Return (json 400 (error_body "text and database_id are required")), []))
    /\ (truthy (body_field req "text") = true ->
        truthy (body_field req "database_id") = true ->
        denies (ALLOWED_DATABASES env) (body_field req "database_id") ->
        run (natural_language_to_sql env req) rt
        = (Return (json 400 (error_body "database_id not allowed")), []))
    /\ (truthy (body_field req "text") = true ->
        truthy (body_field req "database_id") = true ->
        permits (ALLOWED_DATABASES env) (body_field req "database_id") ->
        env_set (OPENAI_API_KEY env) = false ->
        run (natural_language_to_sql env req) rt
        = (Return (json 500 (error_body "OPENAI_API_KEY not set on server")), [])).
Proof.
  intros env rt req. repeat split.
  - apply translate_missing_fields.
  - apply translate_denied.
  - apply translate_no_key.
Qed.

Lemma natural_language_to_sql_validation_order_witness :
  run (natural_language_to_sql env_sample
         (post "/natural_language_to_sql" (JObj [("text", JStr "how many orders")])))
      (rt_answering JNull)
  = (Return (json 400 (error_body "text and database_id are required")), [])
  /\ run (natural_language_to_sql env_sample (translate_request (JNum 3)))
         (rt_answering JNull)
     = (Return (json 400 (error_body "database_id not allowed")), [])
  /\ run (natural_language_to_sql env_no_openai (translate_request (JNum 2)))
         (rt_answering JNull)
     = (Return (json 500 (error_body "OPENAI_API_KEY not set on server")), []).
Proof.
  split; [ | split ].
  - apply (proj1 (natural_language_to_sql_validation_order _ _ _)).
    right. reflexivity.
  - apply (proj1 (proj2 (natural_language_to_sql_validation_order _ _ _)));
      vm_compute; reflexivity.
  - apply (proj2 (proj2 (natural_language_to_sql_validation_order _ _ _)));
      vm_compute; reflexivity.
Defined.

(* ===================================================================== *)
(** ** The analytics upstream call *)
(* ===================================================================== *)

Lemma callMetabase_unconfigured (env : ProcessEnv) (path : string) (m : Method)
  (data : JsValue) (rt : Runtime) (tr : list OutCall) :
  metabase_configured env = false ->
  callMetabase env path m data rt tr = (Throw not_configured, tr).
Proof.
  unfold metabase_configured, callMetabase. intros H.
  destruct (env_set (METABASE_URL env)), (env_set (METABASE_API_KEY env));
    try discriminate; reflexivity.
Qed.

Lemma callMetabase_configured (env : ProcessEnv) (path : string) (m : Method)
  (data : JsValue) (rt : Runtime) (tr : list OutCall) :
  metabase_configured env = true ->
  callMetabase env path m data rt tr
  = axios_request (metabase_call env path m data) rt tr.
Proof.
  unfold metabase_configured, callMetabase. intros H.
  apply andb_true_iff in H. destruct H as [-> ->]. reflexivity.
Qed.

(* ===================================================================== *)
(** ** POST /create_question *)
(* ===================================================================== *)

Lemma create_question_missing_fields (env : ProcessEnv) (rt : Runtime) (req : Request) :
  truthy (body_field req "name") = false
  \/ truthy (body_field req "sql") = false
  \/ truthy (body_field req "database_id") = false ->
  run (create_question env req) rt
  = (Return (json 400 (error_body "name, sql, database_id are required")), []).
Proof.
  intros Hf. enter_handler create_question. revert Hf.
  destruct (truthy (body_field req "name")),
           (truthy (body_field req "sql")),
           (truthy (body_field req "database_id"));
    intros [Hf | [Hf | Hf]]; try discriminate; reflexivity.
Qed.

(** The run of the create handler on a request whose three fields are
    truthy, by what the allow-list test ends with. *)
Lemma create_question_present (env : ProcessEnv) (rt : Runtime) (req : Request) :
  truthy (body_field req "name") = true ->
  truthy (body_field req "sql") = true ->
  truthy (body_field req "database_id") = true ->
  run (create_question env req) rt
  = match allow_list_denies (ALLOWED_DATABASES env) (body_field req "database_id") with
    | Throw e =>
        (Return (json 500 (failure_body "create_question failed" (failure_details rt e))), [])
    | Return true =>
        (Return (json 400 (error_body "database_id not allowed")), [])
    | Return false =>
        if metabase_configured env
        then
          let c := creation_call env req in
          match axios rt c with
          | Resolved card =>
              (Return (recover "create_question failed" rt (question_ref card)), [c])
          | Rejected e =>
              (Return (json 500 (failure_body "create_question failed"
                                   (failure_details rt e))), [c])
          end
        else
          (Return (json 500 (failure_body "create_question failed"
                               (failure_details rt not_configured))), [])
    end.
Proof.
  intros Hn Hs Hd. enter_handler create_question. rewrite Hn, Hs, Hd.
  cbn [negb orb].
  destruct (allow_list_denies _ _) as [ [ | ] | e ]; try reflexivity.
  destruct (metabase_configured env) eqn:Hc.
  - rewrite callMetabase_configured by assumption.
    unfold axios_request. cbv zeta.
    destruct (axios rt _) as [ card | e ]; [ | reflexivity ].
    unfold question_ref, recover.
    destruct (js_get card "id") as [ id | e ]; [ | reflexivity ].
    cbn [obind].
    destruct (js_get card "name") as [ nm | e ]; [ | reflexivity ].
    cbn [obind].
    destruct (question_url card) as [ url | e ]; reflexivity.
  - rewrite callMetabase_unconfigured by assumption. reflexivity.
Qed.

(** C3.  On a request whose [name], [sql] and [database_id] are truthy
    and whose [database_id] the filter permits, the card has display
    ["table"] and query type ["native"], holds the caller's [sql] as
    the native query and the caller's [database_id] as the database;
    every call the handler issues is the creation call with that card
    as its data, and with the analytics credentials set the handler
    issues exactly that call. *)
Theorem create_question_payload_native :
  forall (env : ProcessEnv) (rt : Runtime) (req : Request),
    truthy (body_field req "name") = true ->
    truthy (body_field req "sql") = true ->
    truthy (body_field req "database_id") = true ->
    permits (ALLOWED_DATABASES env) (body_field req "database_id") ->
    prop (request_card req) "display" = JStr "table"
    /\ prop (prop (request_card req) "dataset_query") "type" = JStr "native"
    /\ prop (prop (prop (request_card req) "dataset_query") "native") "query"
       = body_field req "sql"
    /\ prop (prop (request_card req) "dataset_query") "database"
       = body_field req "database_id"
    /\ call_data (creation_call env req) = request_card req
    /\ call_method (creation_call env req) = POST
    /\ (forall c : OutCall,
          In c (snd (run (create_question env req) rt)) -> c = creation_call env req)
    /\ (metabase_configured env = true ->
        snd (run (create_question env req) rt) = [creation_call env req]).
Proof.
  intros env rt req Hn Hs Hd Hp.
  repeat (split; [ reflexivity | ]).
  rewrite (create_question_present env rt req Hn Hs Hd).
  unfold permits in Hp. rewrite Hp. split.
  - intros c. destruct (metabase_configured env); cbv zeta.
    + destruct (axios rt _); simpl; intros [ <- | [] ]; reflexivity.
    + intros [].
  - intros ->. cbv zeta. destruct (axios rt _); reflexivity.
Qed.

Lemma create_question_payload_native_witness :
  prop (prop (request_card (create_request (JNum 2))) "dataset_query") "type"
  = JStr "native"
  /\ prop (prop (prop (request_card (create_request (JNum 2))) "dataset_query")
             "native") "query"
     = JStr "SELECT 1"
  /\ snd (run (create_question env_sample (create_request (JNum 2)))
            (rt_answering sample_card))
     = [creation_call env_sample (create_request (JNum 2))].
Proof.
  assert (H := create_question_payload_native env_sample (rt_answering sample_card)
                 (create_request (JNum 2)) eq_refl eq_refl eq_refl eq_refl).
  destruct H as (_ & Hty & Hq & _ & _ & _ & _ & Hone).
  exact (conj Hty (conj Hq (Hone eq_refl))).
Defined.

Lemma question_ref_success (card : JsValue) (r : Response) :
  question_ref card = Return r ->
  exists url : string,
    r = json 200 (JObj [("question_id", prop card "id");
                        ("name", prop card "name");
                        ("url", JStr url)])
    /\ question_url card = Return url.
Proof.
  unfold question_ref. destruct (nullish card) eqn:Hn.
  - destruct card; try discriminate Hn; discriminate.
  - rewrite !(js_get_not_nullish card) by assumption. cbn [obind].
    destruct (question_url card) as [ url | e ]; [ | discriminate ].
    cbn [obind]. intros H. injection H as <-. now exists url.
Qed.

Lemma question_url_cases (card : JsValue) (url : string) :
  question_url card = Return url ->
  (truthy (prop card "public_uuid") = true ->
   exists s, js_String (prop card "public_uuid") = Return s
             /\ url = "/public/question/" ++ s)
  /\ (truthy (prop card "public_uuid") = false ->
      exists s, js_String (prop card "id") = Return s
                /\ url = "/question/" ++ s).
Proof.
  unfold question_url. destruct (nullish card) eqn:Hn.
  - destruct card; try discriminate Hn; discriminate.
  - rewrite !(js_get_not_nullish card) by assumption. cbn [obind].
    destruct (truthy (prop card "public_uuid")).
    + destruct (js_String (prop card "public_uuid")) as [ s | e ]; [ | discriminate ].
      cbn [obind]. intros H. injection H as <-.
      split; [ intros _; now exists s | discriminate ].
    + cbn [obind].
      destruct (js_String (prop card "id")) as [ s | e ]; [ | discriminate ].
      cbn [obind]. intros H. injection H as <-.
      split; [ discriminate | intros _; now exists s ].
Qed.

(** C6.  Whenever POST /create_question answers 200, the creation
    call was issued and resolved with a card; the answer carries the
    card's [id] as [question_id] and the card's [name] as [name]; its
    [url] is "/public/question/" followed by the card's [public_uuid]
    when that is truthy, and "/question/" followed by the card's [id]
    otherwise. *)
Theorem create_question_success_response :
  forall (env : ProcessEnv) (rt : Runtime) (req : Request)
         (resp : Response) (tr : list OutCall),
    run (create_question env req) rt = (Return resp, tr) ->
    status resp = 200 ->
    exists (card : JsValue) (url : string),
      tr = [creation_call env req]
      /\ axios rt (creation_call env req) = Resolved card
      /\ body resp = JObj [("question_id", prop card "id");
                           ("name", prop card "name");
                           ("url", JStr url)]
      /\ (truthy (prop card "public_uuid") = true ->
          exists s, js_String (prop card "public_uuid") = Return s
                    /\ url = "/public/question/" ++ s)
      /\ (truthy (prop card "public_uuid") = false ->
          exists s, js_String (prop card "id") = Return s
                    /\ url = "/question/" ++ s).
Proof.
  intros env rt req resp tr Hrun Hst.
  destruct (truthy (body_field req "name")) eqn:Hn;
    [ | rewrite create_question_missing_fields in Hrun by tauto;
        injection Hrun as <- <-; discriminate ].
  destruct (truthy (body_field req "sql")) eqn:Hs;
    [ | rewrite create_question_missing_fields in Hrun by tauto;
        injection Hrun as <- <-; discriminate ].
  destruct (truthy (body_field req "database_id")) eqn:Hd;
    [ | rewrite create_question_missing_fields in Hrun by tauto;
        injection Hrun as <- <-; discriminate ].
  rewrite (create_question_present env rt req Hn Hs Hd) in Hrun.
  destruct (allow_list_denies _ _) as [ [ | ] | e ];
    try (injection Hrun as <- <-; discriminate).
  destruct (metabase_configured env);
    [ | injection Hrun as <- <-; discriminate ].
  cbv zeta in Hrun.
  destruct (axios rt (creation_call env req)) as [ card | e ] eqn:Hax;
    [ | injection Hrun as <- <-; discriminate ].
  injection Hrun as <- <-.
  destruct (question_ref card) as [ r | e ] eqn:Hq; [ | discriminate ].
  apply question_ref_success in Hq. destruct Hq as [url [-> Hurl]].
  exists card, url. repeat split; try reflexivity; now apply question_url_cases.
Qed.

Lemma create_question_success_response_witness :
  exists (card : JsValue) (url : string),
    [creation_call env_sample (create_request (JNum 2))]
    = [creation_call env_sample (create_request (JNum 2))]
    /\ axios (rt_answering sample_card)
         (creation_call env_sample (create_request (JNum 2))) = Resolved card
    /\ body sample_question_ref
       = JObj [("question_id", prop card "id"); ("name", prop card "name");
               ("url", JStr url)]
    /\ (truthy (prop card "public_uuid") = true ->
        exists s, js_String (prop card "public_uuid") = Return s
                  /\ url = "/public/question/" ++ s)
    /\ (truthy (prop card "public_uuid") = false ->
        exists s, js_String (prop card "id") = Return s
                  /\ url = "/question/" ++ s).
Proof.
  apply (create_question_success_response env_sample (rt_answering sample_card)
           (create_request (JNum 2)) sample_question_ref
           [creation_call env_sample (create_request (JNum 2))]).
  - vm_compute. reflexivity.
  - reflexivity.
Defined.

(* ===================================================================== *)
(** ** POST /get_question_results *)
(* ===================================================================== *)

Lemma get_question_results_missing (env : ProcessEnv) (rt : Runtime) (req : Request) :
  truthy (body_field req "question_id") = false ->
  run (get_question_results env req) rt
  = (Return (json 400 (error_body "question_id is required")), []).
Proof. intros H. enter_handler get_question_results. now rewrite H. Qed.

(** The run of the fetch handler on a request whose [question_id] is
    truthy. *)
Lemma get_question_results_present (env : ProcessEnv) (rt : Runtime) (req : Request) :
  truthy (body_field req "question_id") = true ->
  run (get_question_results env req) rt
  = match js_String (body_field req "question_id") with
    | Throw e =>
        (Return (json 500 (failure_body "get_question_results failed"
                             (failure_details rt e))), [])
    | Return s =>
        if metabase_configured env
        then
          match axios rt (query_call env s) with
          | Resolved data => (Return (result_set data), [query_call env s])
          | Rejected e =>
              (Return (json 500 (failure_body "get_question_results failed"
                                   (failure_details rt e))), [query_call env s])
          end
        else
          (Return (json 500 (failure_body "get_question_results failed"
                               (failure_details rt not_configured))), [])
    end.
Proof.
  intros Hq. enter_handler get_question_results. rewrite Hq. cbn [negb].
  unfold query_path.
  destruct (js_String (body_field req "question_id")) as [ s | e ];
    [ | reflexivity ].
  cbn [obind]. destruct (metabase_configured env) eqn:Hc.
  - rewrite callMetabase_configured by assumption.
    unfold axios_request, query_call.
    destruct (axios rt _) as [ data | e ]; [ | reflexivity ].
    rewrite !js_opt_get_prop. reflexivity.
  - rewrite callMetabase_unconfigured by assumption. reflexivity.
Qed.

(** C4, as stated, fails.  With no analytics credentials a request
    with [question_id] 123 issues no call at all; and with credentials,
    when the upstream payload has [data.cols] equal to [0], the answer's
    [cols] is the empty sequence, not the payload's [data.cols]. *)
Lemma get_question_results_one_call_counterexample :
  truthy (body_field (results_request (JNum 123)) "question_id") = true
  /\ ~ issues_one_query_call env_no_metabase (rt_answering payload_without_table)
        (results_request (JNum 123))
  /\ ~ cols_are_upstream_cols env_sample (rt_answering payload_cols_zero)
        (results_request (JNum 123)) payload_cols_zero.
Proof.
  split; [ reflexivity | split ].
  - intros [c [H _]]. vm_compute in H. discriminate.
  - intros [resp [H1 H2]]. vm_compute in H1. injection H1 as <-.
    vm_compute in H2. discriminate.
Qed.

(** C4, amended.  On a request whose [question_id] is truthy the fetch
    handler issues at most one call, and any call it issues is the
    query execution of that question, a POST to
    /api/card/<question_id>/query with an empty parameter set; with
    the analytics credentials set and a [question_id] that has a
    string form it issues exactly that call.  Once that call resolves
    with a payload, whatever the payload is, the answer is 200 with
    [raw] the payload as it came and [cols] and [rows] the payload's
    [data.cols] and [data.rows] where those are truthy, the empty
    sequence where they are absent or falsy; an absent [data.cols] or
    [data.rows] is not an error.  Every 200 answer is of that kind. *)
Theorem get_question_results_call_and_result :
  forall (env : ProcessEnv) (rt : Runtime) (req : Request),
    truthy (body_field req "question_id") = true ->
    (List.length (snd (run (get_question_results env req) rt)) <= 1)%nat
    /\ (forall c : OutCall,
          In c (snd (run (get_question_results env req) rt)) ->
          exists s, js_String (body_field req "question_id") = Return s
                    /\ c = query_call env s
                    /\ call_url c
                       = strip_trailing_slash (env_or (METABASE_URL env) "")
                         ++ "/api/card/" ++ s ++ "/query"
                    /\ call_method c = POST
                    /\ call_data c = JObj [("parameters", JArr [])])
    /\ (metabase_configured env = true ->
        forall s, js_String (body_field req "question_id") = Return s ->
                  snd (run (get_question_results env req) rt) = [query_call env s])
    /\ (forall resp : Response,
          fst (run (get_question_results env req) rt) = Return resp ->
          status resp = 200 ->
          exists (s : string) (data : JsValue),
            js_String (body_field req "question_id") = Return s
            /\ axios rt (query_call env s) = Resolved data
            /\ body resp = JObj [("cols", result_cols data);
                                 ("rows", result_rows data);
                                 ("raw", data)]
            /\ (forall k : string,
                  truthy (opt_prop (opt_prop data "data") k) = true ->
                  js_or (opt_prop (opt_prop data "data") k) (JArr [])
                  = opt_prop (opt_prop data "data") k)
            /\ (forall k : string,
                  truthy (opt_prop (opt_prop data "data") k) = false ->
                  js_or (opt_prop (opt_prop data "data") k) (JArr []) = JArr []))
    /\ (metabase_configured env = true ->
        forall (s : string) (data : JsValue),
          js_String (body_field req "question_id") = Return s ->
          axios rt (query_call env s) = Resolved data ->
          run (get_question_results env req) rt
          = (Return {| status := 200;
                       body := JObj [("cols", result_cols data);
                                     ("rows", result_rows data);
                                     ("raw", data)] |},
             [query_call env s])
          /\ (opt_prop (opt_prop data "data") "cols" = JUndefined ->
              result_cols data = JArr [])
          /\ (opt_prop (opt_prop data "data") "rows" = JUndefined ->
              result_rows data = JArr [])
          /\ (forall items : list JsValue,
                prop (prop data "data") "cols" = JArr items ->
                result_cols data = JArr items)
          /\ (forall items : list JsValue,
                prop (prop data "data") "rows" = JArr items ->
                result_rows data = JArr items)).
Proof.
  intros env rt req Hq.
  split; [ | split; [ | split; [ | split ] ] ].
  - rewrite (get_question_results_present env rt req Hq).
    destruct (js_String _) as [ s | e ]; [ | simpl; lia ].
    destruct (metabase_configured env); [ | simpl; lia ].
    destruct (axios rt _); simpl; lia.
  - intros c. rewrite (get_question_results_present env rt req Hq).
    destruct (js_String _) as [ s | e ]; [ | intros [] ].
    destruct (metabase_configured env); [ | intros [] ].
    destruct (axios rt _); cbn [snd]; intros [ <- | [] ];
      exists s; repeat split.
  - intros Hc s Hs.
    rewrite (get_question_results_present env rt req Hq), Hs, Hc.
    destruct (axios rt _); reflexivity.
  - intros resp H Hst.
    rewrite (get_question_results_present env rt req Hq) in H.
    destruct (js_String _) as [ s | e ];
      [ | injection H as <-; discriminate ].
    destruct (metabase_configured env);
      [ | injection H as <-; discriminate ].
    destruct (axios rt (query_call env s)) as [ data | e ] eqn:Hax;
      [ | injection H as <-; discriminate ].
    injection H as <-. exists s, data. repeat split; try assumption.
    + intros k Hk. unfold js_or. now rewrite Hk.
    + intros k Hk. unfold js_or. now rewrite Hk.
  - intros Hc s data Hs Hax.
    rewrite (get_question_results_present env rt req Hq), Hs, Hc, Hax.
    split; [ reflexivity | ].
    split; [ intros Hu; unfold result_cols, js_or; now rewrite Hu | ].
    split; [ intros Hu; unfold result_rows, js_or; now rewrite Hu | ].
    split; intros items Hi.
    + unfold result_cols, opt_prop.
      destruct (nullish data) eqn:Hn;
        [ destruct data; try discriminate Hn; discriminate Hi | ].
      destruct (nullish (prop data "data")) eqn:Hn';
        [ destruct (prop data "data"); try discriminate Hn'; discriminate Hi | ].
      now rewrite Hi.
    + unfold result_rows, opt_prop.
      destruct (nullish data) eqn:Hn;
        [ destruct data; try discriminate Hn; discriminate Hi | ].
      destruct (nullish (prop data "data")) eqn:Hn';
        [ destruct (prop data "data"); try discriminate Hn'; discriminate Hi | ].
      now rewrite Hi.
Qed.

Lemma get_question_results_call_and_result_witness :
  snd (run (get_question_results env_sample (results_request (JNum 123)))
         (rt_answering payload_without_table))
  = [query_call env_sample "123"]
  /\ run (get_question_results env_sample (results_request (JNum 123)))
         (rt_answering payload_without_table)
     = (Return {| status := 200;
                  body := JObj [("cols", JArr []); ("rows", JArr []);
                                ("raw", payload_without_table)] |},
        [query_call env_sample "123"])
  /\ run (get_question_results env_sample (results_request (JNum 123)))
         (rt_answering JNull)
     = (Return {| status := 200;
                  body := JObj [("cols", JArr []); ("rows", JArr []);
                                ("raw", JNull)] |},
        [query_call env_sample "123"])
  /\ exists (s : string) (data : JsValue),
       js_String (body_field (results_request (JNum 123)) "question_id") = Return s
       /\ axios (rt_answering payload_without_table) (query_call env_sample s)
          = Resolved data
       /\ body (json 200 (JObj [("cols", JArr []); ("rows", JArr []);
                                ("raw", payload_without_table)]))
          = JObj [("cols", result_cols data); ("rows", result_rows data);
                  ("raw", data)]
       /\ (forall k : string,
             truthy (opt_prop (opt_prop data "data") k) = true ->
             js_or (opt_prop (opt_prop data "data") k) (JArr [])
             = opt_prop (opt_prop data "data") k)
       /\ (forall k : string,
             truthy (opt_prop (opt_prop data "data") k) = false ->
             js_or (opt_prop (opt_prop data "data") k) (JArr []) = JArr []).
Proof.
  assert (H := get_question_results_call_and_result env_sample
                 (rt_answering payload_without_table)
                 (results_request (JNum 123)) eq_refl).
  assert (H' := get_question_results_call_and_result env_sample
                  (rt_answering JNull)
                  (results_request (JNum 123)) eq_refl).
  destruct H as (_ & _ & Hone & Hres & Hrun).
  destruct H' as (_ & _ & _ & _ & Hrun').
  split; [ | split; [ | split ] ].
  - exact (Hone eq_refl "123"%string eq_refl).
  - exact (proj1 (Hrun eq_refl "123"%string payload_without_table eq_refl eq_refl)).
  - exact (proj1 (Hrun' eq_refl "123"%string JNull eq_refl eq_refl)).
  - exact (Hres _ eq_refl eq_refl).
Defined.

(** C7.  The fetch handler does not read the allow-list: under two
    environments that agree on everything but the allow-listed
    databases, it gives the same answer and issues the same calls on
    every request, with every runtime and from every trace. *)
Theorem get_question_results_ignores_allow_list :
  forall (env1 env2 : ProcessEnv) (req : Request) (rt : Runtime)
         (tr : list OutCall),
    same_but_allow_list env1 env2 ->
    get_question_results env1 req rt tr = get_question_results env2 req rt tr.
Proof.
  intros env1 env2 req rt tr (Hurl & Hkey & _ & _).
  unfold get_question_results, callMetabase, metabase_call.
  rewrite Hurl, Hkey. reflexivity.
Qed.

Lemma get_question_results_ignores_allow_list_witness :
  ALLOWED_DATABASES env_sample = ["2"%string]
  /\ ALLOWED_DATABASES env_sample_db3 = ["3"%string]
  /\ get_question_results env_sample (results_request (JNum 123))
       (rt_answering payload_without_table) []
     = get_question_results env_sample_db3 (results_request (JNum 123))
         (rt_answering payload_without_table) [].
Proof.
  split; [ reflexivity | split; [ reflexivity | ] ].
  apply (get_question_results_ignores_allow_list env_sample env_sample_db3).
  repeat split.
Defined.

(* ===================================================================== *)
(** ** Missing analytics credentials *)
(* ===================================================================== *)

Lemma metabase_unconfigured_iff (env : ProcessEnv) :
  metabase_configured env = false
  <-> env_set (METABASE_URL env) = false \/ env_set (METABASE_API_KEY env) = false.
Proof. unfold metabase_configured. apply andb_false_iff. Qed.

Lemma create_question_unconfigured_no_call (env : ProcessEnv) (rt : Runtime)
  (req : Request) :
  metabase_configured env = false ->
  snd (run (create_question env req) rt) = [].
Proof.
  intros Hc.
  destruct (truthy (body_field req "name")) eqn:Hn;
    [ | rewrite create_question_missing_fields by tauto; reflexivity ].
  destruct (truthy (body_field req "sql")) eqn:Hs;
    [ | rewrite create_question_missing_fields by tauto; reflexivity ].
  destruct (truthy (body_field req "database_id")) eqn:Hd;
    [ | rewrite create_question_missing_fields by tauto; reflexivity ].
  rewrite (create_question_present env rt req Hn Hs Hd), Hc.
  destruct (allow_list_denies _ _) as [ [ | ] | e ]; reflexivity.
Qed.

Lemma get_question_results_unconfigured_no_call (env : ProcessEnv) (rt : Runtime)
  (req : Request) :
  metabase_configured env = false ->
  snd (run (get_question_results env req) rt) = [].
Proof.
  intros Hc.
  destruct (truthy (body_field req "question_id")) eqn:Hq;
    [ | rewrite get_question_results_missing by assumption; reflexivity ].
  rewrite (get_question_results_present env rt req Hq), Hc.
  destruct (js_String _); reflexivity.
Qed.

(** C8.  When the analytics base URL or the analytics key is not set,
    [callMetabase] throws the not-configured error and leaves the trace
    as it was; the create and fetch handlers issue no call on any
    request, and on a request that gets as far as the upstream call
    they answer 500 with that error's message as details.  The
    translate handler runs the same under any other analytics
    configuration. *)
Theorem analytics_not_configured :
  forall (env : ProcessEnv) (rt : Runtime) (req : Request),
    env_set (METABASE_URL env) = false \/ env_set (METABASE_API_KEY env) = false ->
    (forall (path : string) (m : Method) (data : JsValue) (tr : list OutCall),
        callMetabase env path m data rt tr = (Throw not_configured, tr))
    /\ snd (run (create_question env req) rt) = []
    /\ (truthy (body_field req "name") = true ->
        truthy (body_field req "sql") = true ->
        truthy (body_field req "database_id") = true ->
        permits (ALLOWED_DATABASES env) (body_field req "database_id") ->
        run (create_question env req) rt
        = (Return (json 500
                     (failure_body "create_question failed"
                        (JStr "Metabase not configured (METABASE_URL / METABASE_API_KEY)."))),
           []))
    /\ snd (run (get_question_results env req) rt) = []
    /\ (truthy (body_field req "question_id") = true ->
        forall s, js_String (body_field req "question_id") = Return s ->
        run (get_question_results env req) rt
        = (Return (json 500
                     (failure_body "get_question_results failed"
                        (JStr "Metabase not configured (METABASE_URL / METABASE_API_KEY)."))),
           []))
    /\ (forall (env' : ProcessEnv) (tr : list OutCall),
          same_but_metabase env env' ->
          natural_language_to_sql env req rt tr
          = natural_language_to_sql env' req rt tr).
Proof.
  intros env rt req H. apply metabase_unconfigured_iff in H.
  split; [ | split; [ | split; [ | split; [ | split ] ] ] ].
  - intros path m data tr. now apply callMetabase_unconfigured.
  - now apply create_question_unconfigured_no_call.
  - intros Hn Hs Hd Hp.
    rewrite (create_question_present env rt req Hn Hs Hd), H.
    unfold permits in Hp. now rewrite Hp.
  - now apply get_question_results_unconfigured_no_call.
  - intros Hq s Hs.
    rewrite (get_question_results_present env rt req Hq), H, Hs. reflexivity.
  - intros env' tr (Hkey & Hallow & Hmodel).
    unfold natural_language_to_sql, ALLOWED_DATABASES, openai_call, openai_payload.
    rewrite Hkey, Hallow, Hmodel. reflexivity.
Qed.

Lemma analytics_not_configured_witness :
  run (create_question env_no_metabase (create_request (JNum 2)))
      (rt_answering sample_card)
  = (Return (json 500
               (failure_body "create_question failed"
                  (JStr "Metabase not configured (METABASE_URL / METABASE_API_KEY)."))),
     [])
  /\ run (get_question_results env_no_metabase (results_request (JNum 123)))
         (rt_answering payload_without_table)
     = (Return (json 500
                  (failure_body "get_question_results failed"
                     (JStr "Metabase not configured (METABASE_URL / METABASE_API_KEY)."))),
        [])
  /\ natural_language_to_sql env_no_metabase (translate_request (JNum 2))
       (rt_answering sample_completion) []
     = natural_language_to_sql env_sample (translate_request (JNum 2))
         (rt_answering sample_completion) [].
Proof.
  assert (H := analytics_not_configured env_no_metabase (rt_answering sample_card)
                 (create_request (JNum 2)) (or_introl eq_refl)).
  assert (H' := analytics_not_configured env_no_metabase
                  (rt_answering payload_without_table)
                  (results_request (JNum 123)) (or_introl eq_refl)).
  assert (H'' := analytics_not_configured env_no_metabase
                   (rt_answering sample_completion)
                   (translate_request (JNum 2)) (or_introl eq_refl)).
  destruct H as (_ & _ & Hcreate & _).
  destruct H' as (_ & _ & _ & _ & Hfetch & _).
  destruct H'' as (_ & _ & _ & _ & _ & Htr).
  split; [ | split ].
  - exact (Hcreate eq_refl eq_refl eq_refl eq_refl).
  - exact (Hfetch eq_refl "123"%string eq_refl).
  - apply Htr. repeat split.
Defined.

(* ===================================================================== *)
(** ** POST /natural_language_to_sql: the completion *)
(* ===================================================================== *)

Lemma js_opt_get0_returns (v : JsValue) :
  js_opt_get0 v
  = Return (match js_opt_get0 v with Return x => x | Throw _ => JUndefined end).
Proof. destruct v; reflexivity. Qed.

Lemma completion_content_not_nullish (data : JsValue) :
  nullish data = false ->
  completion_content data = Return (completion_text data).
Proof.
  intros H. unfold completion_content, completion_text, first_completion.
  rewrite (js_get_not_nullish data) by assumption. cbn [obind].
  rewrite js_opt_get0_returns. cbn [obind].
  rewrite js_opt_get_prop. cbn [obind]. apply js_opt_get_prop.
Qed.

Lemma completion_content_nullish (data : JsValue) :
  nullish data = true ->
  completion_content data = Throw (TypeErr (CannotReadProperty data "choices")).
Proof. destruct data; try discriminate; reflexivity. Qed.

Lemma first_completion_missing (data : JsValue) :
  nullish (first_completion data) = true -> completion_text data = JUndefined.
Proof. unfold completion_text, opt_prop. now intros ->. Qed.

(** The run of the translate handler on a request that passes the
    three checks. *)
Lemma translate_present (env : ProcessEnv) (rt : Runtime) (req : Request) :
  truthy (body_field req "text") = true ->
  truthy (body_field req "database_id") = true ->
  permits (ALLOWED_DATABASES env) (body_field req "database_id") ->
  env_set (OPENAI_API_KEY env) = true ->
  run (natural_language_to_sql env req) rt
  = match request_prompt req with
    | Throw e => (Return (translate_failure rt e), [])
    | Return prompt =>
        match axios rt (completion_call env prompt req) with
        | Resolved data =>
            (Return
               match translation data (body_field req "database_id") with
               | Return r => r
               | Throw e => translate_failure rt e
               end,
             [completion_call env prompt req])
        | Rejected e =>
            (Return (translate_failure rt e), [completion_call env prompt req])
        end
    end.
Proof.
  intros Ht Hd Hp Hk. enter_handler natural_language_to_sql.
  rewrite Ht, Hd. cbn [negb orb]. unfold permits in Hp. rewrite Hp, Hk.
  cbn [negb]. unfold request_prompt.
  destruct (systemPrompt _ _) as [ prompt | e ]; [ | reflexivity ].
  unfold axios_request, completion_call.
  destruct (axios rt _) as [ data | e ]; [ | reflexivity ].
  unfold translation.
  destruct (completion_content data) as [ content | e ]; [ | reflexivity ].
  cbn [obind].
  destruct (js_opt_trim trim_callee content) as [ sql | e ]; [ | reflexivity ].
  cbn [obind]. destruct (negb (truthy sql)); reflexivity.
Qed.

Lemma translation_of_text (data database_id : JsValue) (s : string) :
  nullish data = false ->
  completion_text data = JStr s ->
  translation data database_id
  = Return (if (trim s =? "")%string
            then json 500 (error_body "No SQL generated")
            else json 200 (JObj [("sql", JStr (trim s)); ("database_id", database_id)])).
Proof.
  intros Hn Hs. unfold translation.
  rewrite completion_content_not_nullish, Hs by assumption.
  cbn [obind js_opt_trim truthy]. rewrite negb_involutive. reflexivity.
Qed.

Lemma translation_of_nothing (data database_id : JsValue) :
  nullish data = false ->
  nullish (completion_text data) = true ->
  translation data database_id = Return (json 500 (error_body "No SQL generated")).
Proof.
  intros Hn Hs. unfold translation.
  rewrite completion_content_not_nullish by assumption.
  destruct (completion_text data); try discriminate; reflexivity.
Qed.

(** Whatever the payload, the handler's answer to it is a 200 carrying
    the trimmed text, or a 500. *)
Lemma translation_answers (rt : Runtime) (data database_id : JsValue) (resp : Response) :
  match translation data database_id with
  | Return r => r
  | Throw e => translate_failure rt e
  end = resp ->
  (status resp = 200
   /\ exists s, completion_text data = JStr s
                /\ trim s <> ""%string
                /\ body resp = JObj [("sql", JStr (trim s));
                                     ("database_id", database_id)])
  \/ status resp = 500.
Proof.
  intros <-. destruct (nullish data) eqn:Hn.
  - unfold translation. rewrite completion_content_nullish by assumption.
    right. reflexivity.
  - destruct (completion_text data) as [ | | b | n | s | l | o ] eqn:Hc;
      try (rewrite translation_of_nothing by (try assumption; now rewrite Hc);
           right; reflexivity);
      try (unfold translation;
           rewrite completion_content_not_nullish, Hc by assumption;
           right; reflexivity).
    rewrite (translation_of_text data database_id s Hn Hc).
    destruct (trim s =? "")%string eqn:E; [ right; reflexivity | ].
    left. split; [ reflexivity | ]. exists s.
    apply String.eqb_neq in E. now repeat split.
Qed.

(** C5.  On a request that passes the three checks, once the
    language-model call has resolved with a payload: if the payload's
    first completion has a message whose content is a string that is
    not empty after trimming, the answer is 200 with [sql] that trimmed
    string and [database_id] the caller's; if there is no first
    completion, no content, or the content is empty after trimming,
    the answer is 500 "No SQL generated"; and in every case the answer
    is either that 200 or a 500. *)
Theorem natural_language_to_sql_completion :
  forall (env : ProcessEnv) (rt : Runtime) (req : Request)
         (prompt : string) (data : JsValue),
    truthy (body_field req "text") = true ->
    truthy (body_field req "database_id") = true ->
    permits (ALLOWED_DATABASES env) (body_field req "database_id") ->
    env_set (OPENAI_API_KEY env) = true ->
    request_prompt req = Return prompt ->
    axios rt (completion_call env prompt req) = Resolved data ->
    (nullish data = false ->
     forall s, completion_text data = JStr s -> trim s <> ""%string ->
     run (natural_language_to_sql env req) rt
     = (Return (json 200 (JObj [("sql", JStr (trim s));
                                ("database_id", body_field req "database_id")])),
        [completion_call env prompt req]))
    /\ (nullish data = false ->
        nullish (first_completion data) = true
        \/ nullish (completion_text data) = true
        \/ (exists s, completion_text data = JStr s /\ trim s = ""%string) ->
        run (natural_language_to_sql env req) rt
        = (Return (json 500 (error_body "No SQL generated")),
           [completion_call env prompt req]))
    /\ (forall resp : Response,
          fst (run (natural_language_to_sql env req) rt) = Return resp ->
          (status resp = 200
           /\ exists s, completion_text data = JStr s
                        /\ trim s <> ""%string
                        /\ body resp = JObj [("sql", JStr (trim s));
                                             ("database_id",
                                              body_field req "database_id")])
          \/ status resp = 500).
Proof.
  intros env rt req prompt data Ht Hd Hp Hk Hprompt Hax.
  rewrite (translate_present env rt req Ht Hd Hp Hk), Hprompt, Hax.
  split; [ | split ].
  - intros Hn s Hs Hne.
    rewrite (translation_of_text data _ s Hn Hs).
    apply String.eqb_neq in Hne. now rewrite Hne.
  - intros Hn [H | [H | [s [Hs He]]]].
    + rewrite translation_of_nothing; try assumption; [ reflexivity | ].
      now rewrite first_completion_missing.
    + now rewrite translation_of_nothing.
    + rewrite (translation_of_text data _ s Hn Hs), He. reflexivity.
  - intros resp H. cbn [fst] in H. injection H as H.
    now apply (translation_answers rt data).
Qed.

Lemma natural_language_to_sql_completion_witness :
  run (natural_language_to_sql env_sample (translate_request (JNum 2)))
      (rt_answering sample_completion)
  = (Return (json 200 (JObj [("sql", JStr "SELECT 1"); ("database_id", JNum 2)])),
     [completion_call env_sample sample_prompt (translate_request (JNum 2))])
  /\ run (natural_language_to_sql env_sample (translate_request (JNum 2)))
         (rt_answering empty_completion)
     = (Return (json 500 (error_body "No SQL generated")),
        [completion_call env_sample sample_prompt (translate_request (JNum 2))]).
Proof.
  split.
  - apply (proj1 (natural_language_to_sql_completion env_sample
                    (rt_answering sample_completion) (translate_request (JNum 2))
                    sample_prompt sample_completion
                    eq_refl eq_refl eq_refl eq_refl eq_refl eq_refl)
             eq_refl "  SELECT 1  "%string eq_refl).
    vm_compute. discriminate.
  - apply (proj1 (proj2 (natural_language_to_sql_completion env_sample
                    (rt_answering empty_completion) (translate_request (JNum 2))
                    sample_prompt empty_completion
                    eq_refl eq_refl eq_refl eq_refl eq_refl eq_refl))
             eq_refl).
    left. reflexivity.
Defined.
(* ===================================================================== *)
(** ** Required fields *)
(* ===================================================================== *)

(** C9.  In each of the three POST handlers a required field whose
    value is [0], the empty string, [false] or [null] is taken as
    missing: the answer is 400 with the handler's message and no
    outbound call is issued. *)
Theorem falsy_required_field_is_missing :
  forall (env : ProcessEnv) (rt : Runtime) (req : Request),
    (falsy_json (body_field req "text")
     \/ falsy_json (body_field req "database_id") ->
     run (natural_language_to_sql env req) rt
     = (Return (json 400 (error_body "text and database_id are required")), []))
    /\ (falsy_json (body_field req "name")
        \/ falsy_json (body_field req "sql")
        \/ falsy_json (body_field req "database_id") ->
        run (create_question env req) rt
        = (Return (json 400 (error_body "name, sql, database_id are required")), []))
    /\ (falsy_json (body_field req "question_id") ->
        run (get_question_results env req) rt
        = (Return (json 400 (error_body "question_id is required")), [])).
Proof.
  intros env rt req. repeat split.
  - intros H.
    apply translate_missing_fields.
    destruct H as [H | H]; [ left | right ]; now apply falsy_json_not_truthy.
  - intros H. apply create_question_missing_fields.
    destruct H as [H | [H | H]]; [ left | right; left | right; right ];
      now apply falsy_json_not_truthy.
  - intros H. apply get_question_results_missing.
    now apply falsy_json_not_truthy.
Qed.

Lemma falsy_required_field_is_missing_witness :
  run (natural_language_to_sql env_sample (translate_request (JNum 0)))
      (rt_answering sample_completion)
  = (Return (json 400 (error_body "text and database_id are required")), [])
  /\ run (create_question env_sample (create_request (JNum 0)))
         (rt_answering sample_card)
     = (Return (json 400 (error_body "name, sql, database_id are required")), [])
  /\ run (get_question_results env_sample (results_request (JNum 0)))
         (rt_answering sample_card)
     = (Return (json 400 (error_body "question_id is required")), []).
Proof.
  split; [ | split ].
  - apply (proj1 (falsy_required_field_is_missing _ _ _)).
    right. left. reflexivity.
  - apply (proj1 (proj2 (falsy_required_field_is_missing _ _ _))).
    right. right. left. reflexivity.
  - apply (proj2 (proj2 (falsy_required_field_is_missing _ _ _))).
    left. reflexivity.
Defined.


(* ===================================================================== *)
(** ** Every handler answers *)
(* ===================================================================== *)

(** The [catch] block of each handler turns a thrown error into a 500
    answer, so a run never ends with an error. *)
Lemma natural_language_to_sql_returns (env : ProcessEnv) (rt : Runtime) (req : Request) :
  exists resp : Response,
    fst (run (natural_language_to_sql env req) rt) = Return resp.
Proof.
  enter_handler natural_language_to_sql.
  destruct (negb _ || negb _); [ now eexists | ].
  destruct (allow_list_denies _ _) as [ [ | ] | e ]; try now eexists.
  destruct (negb _); [ now eexists | ].
  destruct (systemPrompt _ _) as [ prompt | e ]; [ | now eexists ].
  unfold axios_request.
  destruct (axios rt _) as [ data | e ]; [ | now eexists ].
  destruct (completion_content data) as [ content | e ]; [ | now eexists ].
  destruct (js_opt_trim trim_callee content) as [ sql | e ]; [ | now eexists ].
  destruct (negb (truthy sql)); now eexists.
Qed.

Lemma create_question_returns (env : ProcessEnv) (rt : Runtime) (req : Request) :
  exists resp : Response, fst (run (create_question env req) rt) = Return resp.
Proof.
  destruct (truthy (body_field req "name")) eqn:Hn;
    [ | rewrite create_question_missing_fields by tauto; now eexists ].
  destruct (truthy (body_field req "sql")) eqn:Hs;
    [ | rewrite create_question_missing_fields by tauto; now eexists ].
  destruct (truthy (body_field req "database_id")) eqn:Hd;
    [ | rewrite create_question_missing_fields by tauto; now eexists ].
  rewrite (create_question_present env rt req Hn Hs Hd).
  destruct (allow_list_denies _ _) as [ [ | ] | e ]; try now eexists.
  destruct (metabase_configured env); [ | now eexists ].
  cbv zeta. destruct (axios rt _); now eexists.
Qed.

Lemma get_question_results_returns (env : ProcessEnv) (rt : Runtime) (req : Request) :
  exists resp : Response, fst (run (get_question_results env req) rt) = Return resp.
Proof.
  destruct (truthy (body_field req "question_id")) eqn:Hq;
    [ | rewrite get_question_results_missing by assumption; now eexists ].
  rewrite (get_question_results_present env rt req Hq).
  destruct (js_String _); [ | now eexists ].
  destruct (metabase_configured env); [ | now eexists ].
  destruct (axios rt _); now eexists.
Qed.

(* ===================================================================== *)
(** ** Worked requests *)
(* ===================================================================== *)

(** Allow-list ["2"]: the number 2 and the string "2" pass, the number
    3 does not, and neither does the string " 2". *)
Example allow_list_two :
  ALLOWED_DATABASES env_sample = ["2"%string]
  /\ allow_list_denies ["2"%string] (JNum 2) = Return false
  /\ allow_list_denies ["2"%string] (JStr "2") = Return false
  /\ allow_list_denies ["2"%string] (JNum 3) = Return true
  /\ allow_list_denies ["2"%string] (JStr " 2") = Return true.
Proof. repeat split. Qed.

(** An allow-list variable with blanks and empty entries. *)
Example allow_list_parsing :
  ALLOWED_DATABASES
    {| METABASE_URL := None; METABASE_API_KEY := None; OPENAI_API_KEY := None;
       ALLOWED_DATABASES_var := Some " 2, 3 ,,"; NL_SQL_MODEL := None |}
  = ["2"%string; "3"%string].
Proof. reflexivity. Qed.

(** A [database_id] with an own [toString] property has no string form:
    with an empty allow-list it passes, with a non-empty one the test
    throws and the handler answers 500 without calling out. *)
Example allow_list_no_string_form :
  allow_list_denies [] (JObj [("toString", JNum 1)]) = Return false
  /\ allow_list_denies ["2"%string] (JObj [("toString", JNum 1)])
     = Throw (TypeErr CannotConvertToPrimitive)
  /\ run (natural_language_to_sql env_sample
            (translate_request (JObj [("toString", JNum 1)])))
         (rt_answering sample_completion)
     = (Return (json 500 (failure_body "natural_language_to_sql failed"
                            (JStr "TypeError"))), []).
Proof. repeat split. Qed.

(** A created card that is publicly shared. *)
Example create_question_public_url :
  fst (run (create_question env_sample (create_request (JNum 2)))
         (rt_answering (JObj [("id", JNum 7); ("name", JStr "Q1");
                              ("public_uuid", JStr "abc-123")])))
  = Return (json 200 (JObj [("question_id", JNum 7); ("name", JStr "Q1");
                            ("url", JStr "/public/question/abc-123")])).
Proof. reflexivity. Qed.

(** The translate handler on a disallowed database. *)
Example translate_database_three :
  run (natural_language_to_sql env_sample (translate_request (JNum 3)))
      (rt_answering sample_completion)
  = (Return (json 400 (error_body "database_id not allowed")), []).
Proof. reflexivity. Qed.

(** [trim] on blanks, tabs, line ends and a no-break space (bytes 194
    160) at either end; blanks inside stay. *)
Example trim_samples :
  trim "  SELECT 1  " = "SELECT 1"%string
  /\ trim (String (ascii_of_nat 9) ("SELECT a, b" ++ nl)) = "SELECT a, b"%string
  /\ trim (String (ascii_of_nat 194) (String (ascii_of_nat 160) "x"
            ++ String (ascii_of_nat 194) (String (ascii_of_nat 160) "")))
     = "x"%string
  /\ trim "   " = ""%string.
Proof. repeat split. Qed.

(* ===================================================================== *)
(** ** More on [trim] and [split] *)
(* ===================================================================== *)

Lemma strip_ws_fixed (back : bool) (l : list ascii) :
  starts_ws back l = false -> strip_ws back l = l.
Proof.
  destruct l as [ | c1 [ | c2 [ | c3 r3 ] ] ]; cbn [strip_ws starts_ws];
    intros H; try reflexivity.
  - rewrite orb_false_r in H. now rewrite H.
  - apply orb_false_elim in H. destruct H as [H1 H2].
    rewrite orb_false_r in H2. now rewrite H1, H2.
  - apply orb_false_elim in H. destruct H as [H1 H2].
    apply orb_false_elim in H2. destruct H2 as [H2 H3].
    now rewrite H1, H2, H3.
Qed.

Lemma strip_ws_clean (back : bool) (l : list ascii) :
  starts_ws back (strip_ws back l) = false.
Proof.
  assert (H : forall (n : nat) (l0 : list ascii),
             (List.length l0 <= n)%nat ->
             starts_ws back (strip_ws back l0) = false).
  { induction n as [ | n IH ]; intros l0 Hlen.
    - destruct l0; [ reflexivity | simpl in Hlen; lia ].
    - destruct l0 as [ | c1 r1 ]; [ reflexivity | ].
      simpl in Hlen. cbn [strip_ws].
      destruct (is_ws1 (code c1)) eqn:E1; [ apply IH; lia | ].
      destruct r1 as [ | c2 r2 ].
      { cbn [starts_ws]. now rewrite E1. }
      simpl in Hlen.
      destruct (if back then is_ws2 (code c2) (code c1)
                else is_ws2 (code c1) (code c2)) eqn:E2; [ apply IH; lia | ].
      destruct r2 as [ | c3 r3 ].
      { cbn [starts_ws]. now rewrite E1, E2. }
      simpl in Hlen.
      destruct (if back then is_ws3 (code c3) (code c2) (code c1)
                else is_ws3 (code c1) (code c2) (code c3)) eqn:E3;
        [ apply IH; lia | ].
      cbn [starts_ws]. now rewrite E1, E2, E3. }
  apply (H (List.length l)). lia.
Qed.

Lemma starts_ws_prefix (back : bool) (a b : list ascii) :
  starts_ws back (a ++ b)%list = false -> starts_ws back a = false.
Proof.
  destruct a as [ | c1 [ | c2 [ | c3 r3 ] ] ]; try reflexivity;
    cbn [app starts_ws]; intros H.
  - apply orb_false_elim in H. destruct H as [-> _]. reflexivity.
  - apply orb_false_elim in H. destruct H as [-> H].
    apply orb_false_elim in H. destruct H as [-> _]. reflexivity.
  - exact H.
Qed.

(** Trimming twice is trimming once. *)
Lemma trim_idempotent (s : string) : trim (trim s) = trim s.
Proof.
  unfold trim. rewrite list_ascii_of_string_of_list_ascii.
  set (r := strip_ws false (list_ascii_of_string s)).
  set (t := strip_ws true (rev r)).
  assert (Hr : starts_ws false r = false) by apply strip_ws_clean.
  assert (Ht : starts_ws true t = false) by apply strip_ws_clean.
  destruct (strip_ws_suffix true (rev r)) as [pre Hpre]. fold t in Hpre.
  assert (Hsplit : r = (rev t ++ rev pre)%list).
  { rewrite <- rev_app_distr, <- Hpre. symmetry. apply rev_involutive. }
  rewrite Hsplit in Hr. apply starts_ws_prefix in Hr.
  rewrite (strip_ws_fixed false (rev t) Hr), rev_involutive.
  now rewrite (strip_ws_fixed true t Ht).
Qed.

Lemma list_ascii_of_string_app (a b : string) :
  list_ascii_of_string (a ++ b)
  = (list_ascii_of_string a ++ list_ascii_of_string b)%list.
Proof. induction a as [ | c a IH ]; simpl; [ reflexivity | now rewrite IH ]. Qed.

(** A byte of [trim s] is a byte of [s]. *)
Lemma trim_bytes (s : string) (c : ascii) :
  In c (list_ascii_of_string (trim s)) -> In c (list_ascii_of_string s).
Proof.
  destruct (trim_infix s) as [pre [post H]]. intros Hin.
  rewrite H, !list_ascii_of_string_app. apply in_or_app. right.
  apply in_or_app. now left.
Qed.

(** No piece of a split holds the separator. *)
Lemma split_pieces_without_sep (sep : ascii) (s p : string) :
  In p (split sep s) -> ~ In sep (list_ascii_of_string p).
Proof.
  revert p. induction s as [ | c r IH ]; intros p Hin.
  - destruct Hin as [ <- | [] ]. intros [].
  - cbn [split] in Hin. destruct (Ascii.eqb c sep) eqn:E.
    + destruct Hin as [ <- | Hin ]; [ intros [] | now apply IH ].
    + destruct (split sep r) as [ | h t ] eqn:Es.
      * destruct Hin as [ <- | [] ]. intros [ -> | [] ].
        now rewrite Ascii.eqb_refl in E.
      * destruct Hin as [ <- | Hin ].
        -- intros [ -> | Hh ]; [ now rewrite Ascii.eqb_refl in E | ].
           apply (IH h); [ now left | assumption ].
        -- apply IH. now right.
Qed.

(* ===================================================================== *)
(** ** The configured allow-list *)
(* ===================================================================== *)

Lemma allowed_entry_origin (env : ProcessEnv) (e : string) :
  In e (ALLOWED_DATABASES env) ->
  e <> ""%string
  /\ exists piece : string,
       In piece (split "," (env_or (ALLOWED_DATABASES_var env) ""))
       /\ e = trim piece.
Proof.
  intros Hin. unfold ALLOWED_DATABASES in Hin.
  apply filter_In in Hin. destruct Hin as [Hin Hne].
  apply in_map_iff in Hin. destruct Hin as [piece [<- Hpiece]]. split.
  - intros E. unfold nonempty in Hne. now rewrite E in Hne.
  - now exists piece.
Qed.

(** X1.  Every entry of the configured allow-list is the trimmed form
    of a comma-separated piece of the variable; it is not empty, it has
    no white space at either end ([trim] leaves it as it is), and it
    holds no comma. *)
Theorem allowed_databases_entries :
  forall (env : ProcessEnv) (e : string),
    In e (ALLOWED_DATABASES env) ->
    e <> ""%string
    /\ trim e = e
    /\ ~ In ","%char (list_ascii_of_string e)
    /\ exists piece : string,
         In piece (split "," (env_or (ALLOWED_DATABASES_var env) ""))
         /\ e = trim piece.
Proof.
  intros env e Hin.
  destruct (allowed_entry_origin env e Hin) as [Hne [piece [Hpiece ->]]].
  split; [ assumption | split; [ | split ] ].
  - apply trim_idempotent.
  - intros Hc. apply trim_bytes in Hc.
    now apply (split_pieces_without_sep _ _ _ Hpiece).
  - now exists piece.
Qed.

Lemma allowed_databases_entries_witness :
  "3"%string <> ""%string
  /\ trim "3" = "3"%string
  /\ ~ In ","%char (list_ascii_of_string "3")
  /\ exists piece : string,
       In piece (split "," " 2, 3 ,,") /\ "3"%string = trim piece.
Proof.
  apply (allowed_databases_entries
           {| METABASE_URL := None; METABASE_API_KEY := None;
              OPENAI_API_KEY := None;
              ALLOWED_DATABASES_var := Some " 2, 3 ,,";
              NL_SQL_MODEL := None |} "3").
  vm_compute. right. left. reflexivity.
Defined.

(** X2.  With a non-empty allow-list, a [database_id] whose string
    form holds a comma (an array of two identifiers, say) or has white
    space at either end is refused, whatever the entries are. *)
Theorem allow_list_refuses_comma_and_blanks :
  forall (env : ProcessEnv) (database_id : JsValue) (s : string),
    ALLOWED_DATABASES env <> [] ->
    js_String database_id = Return s ->
    In ","%char (list_ascii_of_string s) \/ trim s <> s ->
    denies (ALLOWED_DATABASES env) database_id.
Proof.
  intros env database_id s Hne Hs Hbad. unfold denies, allow_list_denies.
  destruct (ALLOWED_DATABASES env) as [ | a rest ] eqn:Ha; [ contradiction | ].
  change (List.length (a :: rest) =? 0)%nat with false. cbv iota.
  rewrite Hs. cbn [obind]. f_equal. apply negb_true_iff.
  destruct (includes (a :: rest) s) eqn:Hi; [ exfalso | reflexivity ].
  apply includes_In in Hi. rewrite <- Ha in Hi.
  destruct (allowed_entry_origin env s Hi) as [_ [piece [Hpiece ->]]].
  destruct Hbad as [Hbad | Hbad].
  - apply trim_bytes in Hbad.
    now apply (split_pieces_without_sep _ _ _ Hpiece).
  - apply Hbad, trim_idempotent.
Qed.

Lemma allow_list_refuses_comma_and_blanks_witness :
  denies (ALLOWED_DATABASES env_sample) (JArr [JNum 2; JNum 3])
  /\ denies (ALLOWED_DATABASES env_sample) (JStr " 2").
Proof.
  split.
  - apply (allow_list_refuses_comma_and_blanks env_sample
             (JArr [JNum 2; JNum 3]) "2,3").
    + vm_compute. discriminate.
    + reflexivity.
    + left. vm_compute. right. left. reflexivity.
  - apply (allow_list_refuses_comma_and_blanks env_sample (JStr " 2") " 2").
    + vm_compute. discriminate.
    + reflexivity.
    + right. vm_compute. discriminate.
Defined.

(* ===================================================================== *)
(** ** POST /natural_language_to_sql: every run *)
(* ===================================================================== *)

(** The run of the translate handler on a request whose [text] and
    [database_id] are truthy, by what the allow-list test ends with. *)
Lemma translate_fields_present (env : ProcessEnv) (rt : Runtime) (req : Request) :
  truthy (body_field req "text") = true ->
  truthy (body_field req "database_id") = true ->
  run (natural_language_to_sql env req) rt
  = match allow_list_denies (ALLOWED_DATABASES env) (body_field req "database_id") with
    | Throw e => (Return (translate_failure rt e), [])
    | Return true => (Return (json 400 (error_body "database_id not allowed")), [])
    | Return false =>
        if env_set (OPENAI_API_KEY env)
        then
          match request_prompt req with
          | Throw e => (Return (translate_failure rt e), [])
          | Return prompt =>
              match axios rt (completion_call env prompt req) with
              | Resolved data =>
                  (Return
                     match translation data (body_field req "database_id") with
                     | Return r => r
                     | Throw e => translate_failure rt e
                     end,
                   [completion_call env prompt req])
              | Rejected e =>
                  (Return (translate_failure rt e), [completion_call env prompt req])
              end
          end
        else (Return (json 500 (error_body "OPENAI_API_KEY not set on server")), [])
    end.
Proof.
  intros Ht Hd.
  destruct (allow_list_denies _ _) as [ [ | ] | e ] eqn:Ha.
  - now apply translate_denied.
  - destruct (env_set (OPENAI_API_KEY env)) eqn:Hk.
    + now apply translate_present.
    + now apply translate_no_key.
  - enter_handler natural_language_to_sql. rewrite Ht, Hd. cbn [negb orb].
    now rewrite Ha.
Qed.

Lemma translation_success (data database_id : JsValue) (r : Response) :
  translation data database_id = Return r ->
  status r = 200 ->
  exists s : string,
    r = json 200 (JObj [("sql", JStr (trim s)); ("database_id", database_id)])
    /\ completion_text data = JStr s
    /\ trim s <> ""%string.
Proof.
  intros Hr Hst.
  destruct (translation_answers
              {| axios := fun _ => Resolved JNull;
                 type_error_message := fun _ => ""%string |}
              data database_id r) as [ [_ [s (Hs & Hne & Hb)]] | H500 ].
  - now rewrite Hr.
  - exists s. repeat split; try assumption.
    destruct r as [st b]. cbn in Hst, Hb. now subst.
  - rewrite Hst in H500. discriminate.
Qed.

(** X3.  Whenever POST /natural_language_to_sql answers 200, both
    fields were truthy and the filter let [database_id] through, the
    completion call was the one call issued and it resolved; the
    answer's [sql] is a string that is not empty and has no white space
    at either end, and its [database_id] is the caller's. *)
Theorem translate_success_response :
  forall (env : ProcessEnv) (rt : Runtime) (req : Request)
         (resp : Response) (tr : list OutCall),
    run (natural_language_to_sql env req) rt = (Return resp, tr) ->
    status resp = 200 ->
    exists (prompt : string) (data : JsValue) (sql : string),
      truthy (body_field req "text") = true
      /\ permits (ALLOWED_DATABASES env) (body_field req "database_id")
      /\ request_prompt req = Return prompt
      /\ tr = [completion_call env prompt req]
      /\ axios rt (completion_call env prompt req) = Resolved data
      /\ body resp = JObj [("sql", JStr sql);
                           ("database_id", body_field req "database_id")]
      /\ sql <> ""%string
      /\ trim sql = sql.
Proof.
  intros env rt req resp tr Hrun Hst.
  destruct (truthy (body_field req "text")) eqn:Ht;
    [ | rewrite translate_missing_fields in Hrun by tauto;
        injection Hrun as <- <-; discriminate ].
  destruct (truthy (body_field req "database_id")) eqn:Hd;
    [ | rewrite translate_missing_fields in Hrun by tauto;
        injection Hrun as <- <-; discriminate ].
  rewrite (translate_fields_present env rt req Ht Hd) in Hrun.
  destruct (allow_list_denies _ _) as [ [ | ] | e ] eqn:Ha;
    try (injection Hrun as <- <-; discriminate).
  destruct (env_set (OPENAI_API_KEY env));
    [ | injection Hrun as <- <-; discriminate ].
  destruct (request_prompt req) as [ prompt | e ];
    [ | injection Hrun as <- <-; discriminate ].
  destruct (axios rt (completion_call env prompt req)) as [ data | e ] eqn:Hax;
    [ | injection Hrun as <- <-; discriminate ].
  injection Hrun as <- <-.
  destruct (translation data _) as [ r | e ] eqn:Htr; [ | discriminate ].
  destruct (translation_success _ _ _ Htr Hst) as [s (-> & Hs & Hne)].
  exists prompt, data, (trim s).
  repeat split; try assumption; try reflexivity. apply trim_idempotent.
Qed.

Lemma translate_success_response_witness :
  exists (prompt : string) (data : JsValue) (sql : string),
    truthy (body_field (translate_request (JNum 2)) "text") = true
    /\ permits (ALLOWED_DATABASES env_sample)
         (body_field (translate_request (JNum 2)) "database_id")
    /\ request_prompt (translate_request (JNum 2)) = Return prompt
    /\ [completion_call env_sample sample_prompt (translate_request (JNum 2))]
       = [completion_call env_sample prompt (translate_request (JNum 2))]
    /\ axios (rt_answering sample_completion)
         (completion_call env_sample prompt (translate_request (JNum 2)))
       = Resolved data
    /\ body (json 200 (JObj [("sql", JStr "SELECT 1"); ("database_id", JNum 2)]))
       = JObj [("sql", JStr sql);
               ("database_id", body_field (translate_request (JNum 2)) "database_id")]
    /\ sql <> ""%string
    /\ trim sql = sql.
Proof.
  apply (translate_success_response env_sample (rt_answering sample_completion)
           (translate_request (JNum 2))
           (json 200 (JObj [("sql", JStr "SELECT 1"); ("database_id", JNum 2)]))
           [completion_call env_sample sample_prompt (translate_request (JNum 2))]).
  - vm_compute. reflexivity.
  - reflexivity.
Defined.

(* ===================================================================== *)
(** ** What every run of a handler looks like *)
(* ===================================================================== *)

Lemma permits_member (allowed : list string) (database_id : JsValue) :
  allowed <> [] ->
  permits allowed database_id ->
  exists s, js_String database_id = Return s /\ In s allowed.
Proof.
  unfold permits, allow_list_denies. intros Hne.
  destruct allowed as [ | a rest ]; [ contradiction | ].
  change (List.length (a :: rest) =? 0)%nat with false. cbv iota.
  destruct (js_String database_id) as [ s | e ]; [ | discriminate ].
  cbn [obind]. intros H. injection H as H. apply negb_false_iff in H.
  exists s. split; [ reflexivity | now apply includes_In ].
Qed.

(** The calls of a translate run: none, or the completion call of a
    request that passed the three checks. *)
Lemma translate_trace_cases (env : ProcessEnv) (rt : Runtime) (req : Request) :
  snd (run (natural_language_to_sql env req) rt) = []
  \/ (truthy (body_field req "text") = true
      /\ truthy (body_field req "database_id") = true
      /\ permits (ALLOWED_DATABASES env) (body_field req "database_id")
      /\ env_set (OPENAI_API_KEY env) = true
      /\ exists prompt : string,
           request_prompt req = Return prompt
           /\ snd (run (natural_language_to_sql env req) rt)
              = [completion_call env prompt req]).
Proof.
  destruct (truthy (body_field req "text")) eqn:Ht;
    [ | left; rewrite translate_missing_fields by tauto; reflexivity ].
  destruct (truthy (body_field req "database_id")) eqn:Hd;
    [ | left; rewrite translate_missing_fields by tauto; reflexivity ].
  rewrite (translate_fields_present env rt req Ht Hd).
  destruct (allow_list_denies _ _) as [ [ | ] | e ] eqn:Ha;
    try (left; reflexivity).
  destruct (env_set (OPENAI_API_KEY env)); [ | left; reflexivity ].
  destruct (request_prompt req) as [ prompt | e ]; [ | left; reflexivity ].
  right. repeat split; try assumption. exists prompt. split; [ reflexivity | ].
  destruct (axios rt _); reflexivity.
Qed.

(** The calls of a create run: none, or the creation call of a request
    that passed both checks, with the credentials set. *)
Lemma create_trace_cases (env : ProcessEnv) (rt : Runtime) (req : Request) :
  snd (run (create_question env req) rt) = []
  \/ (truthy (body_field req "name") = true
      /\ truthy (body_field req "sql") = true
      /\ truthy (body_field req "database_id") = true
      /\ permits (ALLOWED_DATABASES env) (body_field req "database_id")
      /\ metabase_configured env = true
      /\ snd (run (create_question env req) rt) = [creation_call env req]).
Proof.
  destruct (truthy (body_field req "name")) eqn:Hn;
    [ | left; rewrite create_question_missing_fields by tauto; reflexivity ].
  destruct (truthy (body_field req "sql")) eqn:Hs;
    [ | left; rewrite create_question_missing_fields by tauto; reflexivity ].
  destruct (truthy (body_field req "database_id")) eqn:Hd;
    [ | left; rewrite create_question_missing_fields by tauto; reflexivity ].
  rewrite (create_question_present env rt req Hn Hs Hd).
  destruct (allow_list_denies _ _) as [ [ | ] | e ] eqn:Ha;
    try (left; reflexivity).
  destruct (metabase_configured env); [ | left; reflexivity ].
  right. repeat split; try assumption. cbv zeta.
  destruct (axios rt _); reflexivity.
Qed.

(** The calls of a fetch run: none, or the query call of the
    question. *)
Lemma fetch_trace_cases (env : ProcessEnv) (rt : Runtime) (req : Request) :
  snd (run (get_question_results env req) rt) = []
  \/ (truthy (body_field req "question_id") = true
      /\ metabase_configured env = true
      /\ exists s : string,
           js_String (body_field req "question_id") = Return s
           /\ snd (run (get_question_results env req) rt) = [query_call env s]).
Proof.
  destruct (truthy (body_field req "question_id")) eqn:Hq;
    [ | left; rewrite get_question_results_missing by assumption; reflexivity ].
  rewrite (get_question_results_present env rt req Hq).
  destruct (js_String _) as [ s | e ]; [ | left; reflexivity ].
  destruct (metabase_configured env); [ | left; reflexivity ].
  right. repeat split. exists s. split; [ reflexivity | ].
  destruct (axios rt _); reflexivity.
Qed.

(** X4.  The checks of the create handler come in this order, each one
    ending the request without an outbound call: a falsy [name], [sql]
    or [database_id] gives 400 "name, sql, database_id are required";
    otherwise a refusal by the allow-list filter gives 400 "database_id
    not allowed"; and a [database_id] that has no string form, under a
    non-empty allow-list, gives the handler's 500. *)
Theorem create_question_validation_order :
  forall (env : ProcessEnv) (rt : Runtime) (req : Request),
    (truthy (body_field req "name") = false
     \/ truthy (body_field req "sql") = false
     \/ truthy (body_field req "database_id") = false ->
     run (create_question env req) rt
     = (Return (json 400 (error_body "name, sql, database_id are required")), []))
    /\ (truthy (body_field req "name") = true ->
        truthy (body_field req "sql") = true ->
        truthy (body_field req "database_id") = true ->
        denies (ALLOWED_DATABASES env) (body_field req "database_id") ->
        run (create_question env req) rt
        = (Return (json 400 (error_body "database_id not allowed")), []))
    /\ (truthy (body_field req "name") = true ->
        truthy (body_field req "sql") = true ->
        truthy (body_field req "database_id") = true ->
        forall e : JsError,
          allow_list_denies (ALLOWED_DATABASES env) (body_field req "database_id")
          = Throw e ->
          run (create_question env req) rt
          = (Return (json 500 (failure_body "create_question failed"
                                 (failure_details rt e))), [])).
Proof.
  intros env rt req. split; [ | split ].
  - apply create_question_missing_fields.
  - intros Hn Hs Hd Hden.
    rewrite (create_question_present env rt req Hn Hs Hd).
    unfold denies in Hden. now rewrite Hden.
  - intros Hn Hs Hd e He.
    rewrite (create_question_present env rt req Hn Hs Hd). now rewrite He.
Qed.

Lemma create_question_validation_order_witness :
  run (create_question env_sample
         (post "/create_question" (JObj [("name", JStr "Q1"); ("database_id", JNum 2)])))
      (rt_answering sample_card)
  = (Return (json 400 (error_body "name, sql, database_id are required")), [])
  /\ run (create_question env_sample (create_request (JNum 3)))
         (rt_answering sample_card)
     = (Return (json 400 (error_body "database_id not allowed")), [])
  /\ run (create_question env_sample
            (create_request (JObj [("toString", JNum 1)])))
         (rt_answering sample_card)
     = (Return (json 500 (failure_body "create_question failed" (JStr "TypeError"))),
        []).
Proof.
  split; [ | split ].
  - apply (proj1 (create_question_validation_order _ _ _)).
    right. left. reflexivity.
  - apply (proj1 (proj2 (create_question_validation_order _ _ _)));
      reflexivity.
  - apply (proj2 (proj2 (create_question_validation_order env_sample
                           (rt_answering sample_card)
                           (create_request (JObj [("toString", JNum 1)]))))
             eq_refl eq_refl eq_refl (TypeErr CannotConvertToPrimitive)).
    reflexivity.
Defined.

(** X5.  With a non-empty allow-list, the translate and the create
    handler call out only for a [database_id] whose string form is an
    entry of the list. *)
Theorem allow_list_gates_outbound_calls :
  forall (env : ProcessEnv) (rt : Runtime) (req : Request),
    ALLOWED_DATABASES env <> [] ->
    snd (run (natural_language_to_sql env req) rt) <> []
    \/ snd (run (create_question env req) rt) <> [] ->
    exists s : string,
      js_String (body_field req "database_id") = Return s
      /\ In s (ALLOWED_DATABASES env).
Proof.
  intros env rt req Hne [H | H].
  - destruct (translate_trace_cases env rt req) as [ E | (_ & _ & Hp & _) ];
      [ contradiction | ].
    now apply permits_member.
  - destruct (create_trace_cases env rt req) as [ E | (_ & _ & _ & Hp & _) ];
      [ contradiction | ].
    now apply permits_member.
Qed.

Lemma allow_list_gates_outbound_calls_witness :
  exists s : string,
    js_String (body_field (create_request (JStr "2")) "database_id") = Return s
    /\ In s (ALLOWED_DATABASES env_sample).
Proof.
  apply (allow_list_gates_outbound_calls env_sample (rt_answering sample_card)
           (create_request (JStr "2"))).
  - vm_compute. discriminate.
  - right. vm_compute. discriminate.
Defined.

(** X6.  No handler issues more than one outbound call on a request.
    A call of the translate handler is a POST to the completions
    address that carries the language-model key as a bearer token, and
    only that key.  A call of the create or fetch handler is a POST
    under /api/card of the analytics base URL that carries the
    analytics key in X-Metabase-Session, and only that key.  Every call
    has a 30000 ms timeout. *)
Theorem handlers_outbound_calls :
  forall (env : ProcessEnv) (rt : Runtime) (req : Request),
    ((List.length (snd (run (natural_language_to_sql env req) rt)) <= 1)%nat
     /\ forall c : OutCall,
          In c (snd (run (natural_language_to_sql env req) rt)) ->
          call_url c = completions_url
          /\ call_method c = POST
          /\ call_timeout c = 30000
          /\ call_headers c
             = [("Authorization", "Bearer " ++ env_or (OPENAI_API_KEY env) "");
                ("Content-Type", "application/json")])
    /\ ((List.length (snd (run (create_question env req) rt)) <= 1)%nat
        /\ forall c : OutCall,
             In c (snd (run (create_question env req) rt)) ->
             call_url c
             = strip_trailing_slash (env_or (METABASE_URL env) "") ++ "/api/card"
             /\ call_method c = POST
             /\ call_timeout c = 30000
             /\ call_headers c
                = [("Content-Type", "application/json");
                   ("X-Metabase-Session", env_or (METABASE_API_KEY env) "")])
    /\ ((List.length (snd (run (get_question_results env req) rt)) <= 1)%nat
        /\ forall c : OutCall,
             In c (snd (run (get_question_results env req) rt)) ->
             (exists s : string,
                 call_url c
                 = strip_trailing_slash (env_or (METABASE_URL env) "")
                   ++ "/api/card/" ++ s ++ "/query")
             /\ call_method c = POST
             /\ call_timeout c = 30000
             /\ call_headers c
                = [("Content-Type", "application/json");
                   ("X-Metabase-Session", env_or (METABASE_API_KEY env) "")]).
Proof.
  intros env rt req. split; [ | split ].
  - destruct (translate_trace_cases env rt req)
      as [ -> | (_ & _ & _ & _ & prompt & _ & ->) ].
    + split; [ simpl; lia | intros c [] ].
    + split; [ simpl; lia | ]. intros c [ <- | [] ]. repeat split.
  - destruct (create_trace_cases env rt req) as [ -> | (_ & _ & _ & _ & _ & ->) ].
    + split; [ simpl; lia | intros c [] ].
    + split; [ simpl; lia | ]. intros c [ <- | [] ]. repeat split.
  - destruct (fetch_trace_cases env rt req) as [ -> | (_ & _ & s & _ & ->) ].
    + split; [ simpl; lia | intros c [] ].
    + split; [ simpl; lia | ]. intros c [ <- | [] ].
      split; [ now exists s | repeat split ].
Qed.

Lemma recover_question_ref_status (msg : string) (rt : Runtime) (card : JsValue) :
  status (recover msg rt (question_ref card)) = 200
  \/ status (recover msg rt (question_ref card)) = 500.
Proof.
  destruct (question_ref card) as [ r | e ] eqn:Hq; [ | right; reflexivity ].
  apply question_ref_success in Hq. destruct Hq as [url [-> _]].
  left. reflexivity.
Qed.

Ltac closed_answer :=
  eexists; split;
  [ reflexivity
  | split; [ cbn; tauto | cbn; intros; first [ reflexivity | discriminate ] ] ].

(** X7.  No error escapes a handler: on every request each of the
    three POST handlers ends with an answer, whose status is 200, 400
    or 500; and a 400 answer comes with no outbound call. *)
Theorem handlers_always_answer :
  forall (env : ProcessEnv) (rt : Runtime) (req : Request) (h : M Response),
    h = natural_language_to_sql env req
    \/ h = create_question env req
    \/ h = get_question_results env req ->
    exists resp : Response,
      fst (run h rt) = Return resp
      /\ (status resp = 200 \/ status resp = 400 \/ status resp = 500)
      /\ (status resp = 400 -> snd (run h rt) = []).
Proof.
  intros env rt req h [ -> | [ -> | -> ] ].
  - destruct (truthy (body_field req "text")) eqn:Ht;
      [ | rewrite translate_missing_fields by tauto;
          closed_answer ].
    destruct (truthy (body_field req "database_id")) eqn:Hd;
      [ | rewrite translate_missing_fields by tauto;
          closed_answer ].
    rewrite (translate_fields_present env rt req Ht Hd).
    destruct (allow_list_denies _ _) as [ [ | ] | e ];
      try closed_answer.
    destruct (env_set (OPENAI_API_KEY env));
      [ | closed_answer ].
    destruct (request_prompt req) as [ prompt | e ];
      [ | closed_answer ].
    destruct (axios rt _) as [ data | e ];
      [ | closed_answer ].
    eexists. split; [ reflexivity | ].
    destruct (translation_answers rt data (body_field req "database_id") _ eq_refl)
      as [ [H _] | H ]; rewrite H; split; try tauto; discriminate.
  - destruct (truthy (body_field req "name")) eqn:Hn;
      [ | rewrite create_question_missing_fields by tauto;
          closed_answer ].
    destruct (truthy (body_field req "sql")) eqn:Hs;
      [ | rewrite create_question_missing_fields by tauto;
          closed_answer ].
    destruct (truthy (body_field req "database_id")) eqn:Hd;
      [ | rewrite create_question_missing_fields by tauto;
          closed_answer ].
    rewrite (create_question_present env rt req Hn Hs Hd).
    destruct (allow_list_denies _ _) as [ [ | ] | e ];
      try closed_answer.
    destruct (metabase_configured env);
      [ | closed_answer ].
    cbv zeta. destruct (axios rt _) as [ card | e ];
      [ | closed_answer ].
    eexists. split; [ reflexivity | ].
    destruct (recover_question_ref_status "create_question failed" rt card) as [H | H];
      rewrite H; split; try tauto; discriminate.
  - destruct (truthy (body_field req "question_id")) eqn:Hq;
      [ | rewrite get_question_results_missing by assumption;
          closed_answer ].
    rewrite (get_question_results_present env rt req Hq).
    destruct (js_String _) as [ s | e ];
      [ | closed_answer ].
    destruct (metabase_configured env);
      [ | closed_answer ].
    destruct (axios rt _) as [ data | e ];
      closed_answer.
Qed.

Lemma handlers_always_answer_witness :
  exists resp : Response,
    fst (run (natural_language_to_sql env_sample
                (translate_request (JObj [("toString", JNum 1)])))
           (rt_answering sample_completion))
    = Return resp
    /\ (status resp = 200 \/ status resp = 400 \/ status resp = 500)
    /\ (status resp = 400 ->
        snd (run (natural_language_to_sql env_sample
                    (translate_request (JObj [("toString", JNum 1)])))
               (rt_answering sample_completion))
        = []).
Proof.
  apply (handlers_always_answer env_sample (rt_answering sample_completion)
           (translate_request (JObj [("toString", JNum 1)]))).
  left. reflexivity.
Defined.

(* ===================================================================== *)
(** ** A rejected upstream call *)
(* ===================================================================== *)

(** X8.  When the one upstream call of a handler is rejected with an
    error that has a message, the handler answers 500 after that one
    call.  The create and the fetch handler give as [details] the body
    of the upstream's answer when the error carries a truthy one, and
    the error's message otherwise; the translate handler always gives
    the message, never the upstream's body. *)
Theorem rejected_upstream_call :
  forall (env : ProcessEnv) (rt : Runtime) (req : Request)
         (name message : string) (d : JsValue),
    message <> ""%string ->
    (truthy (body_field req "name") = true ->
     truthy (body_field req "sql") = true ->
     truthy (body_field req "database_id") = true ->
     permits (ALLOWED_DATABASES env) (body_field req "database_id") ->
     metabase_configured env = true ->
     axios rt (creation_call env req) = Rejected (JsErr name message d) ->
     run (create_question env req) rt
     = (Return (json 500 (failure_body "create_question failed"
                            (if truthy d then d else JStr message))),
        [creation_call env req]))
    /\ (truthy (body_field req "question_id") = true ->
        metabase_configured env = true ->
        forall s : string,
          js_String (body_field req "question_id") = Return s ->
          axios rt (query_call env s) = Rejected (JsErr name message d) ->
          run (get_question_results env req) rt
          = (Return (json 500 (failure_body "get_question_results failed"
                                 (if truthy d then d else JStr message))),
             [query_call env s]))
    /\ (truthy (body_field req "text") = true ->
        truthy (body_field req "database_id") = true ->
        permits (ALLOWED_DATABASES env) (body_field req "database_id") ->
        env_set (OPENAI_API_KEY env) = true ->
        forall prompt : string,
          request_prompt req = Return prompt ->
          axios rt (completion_call env prompt req) = Rejected (JsErr name message d) ->
          run (natural_language_to_sql env req) rt
          = (Return (json 500 (failure_body "natural_language_to_sql failed"
                                 (JStr message))),
             [completion_call env prompt req])).
Proof.
  intros env rt req name message d Hm.
  assert (Htext : forall rt', error_text rt' (JsErr name message d) = message).
  { intros rt'. cbn [error_text]. unfold nonempty.
    apply String.eqb_neq in Hm. now rewrite Hm. }
  split; [ | split ].
  - intros Hn Hs Hd Hp Hc Hax.
    rewrite (create_question_present env rt req Hn Hs Hd).
    unfold permits in Hp. rewrite Hp, Hc. cbv zeta. rewrite Hax.
    unfold failure_details, js_or. now rewrite Htext.
  - intros Hq Hc s Hs Hax.
    rewrite (get_question_results_present env rt req Hq), Hs, Hc, Hax.
    unfold failure_details, js_or. now rewrite Htext.
  - intros Ht Hd Hp Hk prompt Hprompt Hax.
    rewrite (translate_present env rt req Ht Hd Hp Hk), Hprompt, Hax.
    unfold translate_failure. now rewrite Htext.
Qed.

Lemma rejected_upstream_call_witness :
  run (create_question env_sample (create_request (JNum 2)))
      (rt_rejecting sample_rejection)
  = (Return (json 500 (failure_body "create_question failed"
                         (JObj [("message", JStr "Forbidden")]))),
     [creation_call env_sample (create_request (JNum 2))])
  /\ run (get_question_results env_sample (results_request (JNum 123)))
         (rt_rejecting sample_unreachable)
     = (Return (json 500 (failure_body "get_question_results failed"
                            (JStr "timeout of 30000ms exceeded"))),
        [query_call env_sample "123"])
  /\ run (natural_language_to_sql env_sample (translate_request (JNum 2)))
         (rt_rejecting sample_rejection)
     = (Return (json 500 (failure_body "natural_language_to_sql failed"
                            (JStr "Request failed with status code 403"))),
        [completion_call env_sample sample_prompt (translate_request (JNum 2))]).
Proof.
  split; [ | split ].
  - apply (proj1 (rejected_upstream_call env_sample (rt_rejecting sample_rejection)
                    (create_request (JNum 2)) "AxiosError"
                    "Request failed with status code 403"
                    (JObj [("message", JStr "Forbidden")])
                    ltac:(discriminate)));
      reflexivity.
  - apply (proj1 (proj2 (rejected_upstream_call env_sample
                    (rt_rejecting sample_unreachable)
                    (results_request (JNum 123)) "AxiosError"
                    "timeout of 30000ms exceeded" JUndefined
                    ltac:(discriminate))));
      reflexivity.
  - apply (proj2 (proj2 (rejected_upstream_call env_sample
                    (rt_rejecting sample_rejection)
                    (translate_request (JNum 2)) "AxiosError"
                    "Request failed with status code 403"
                    (JObj [("message", JStr "Forbidden")])
                    ltac:(discriminate))));
      reflexivity.
Defined.

(* ===================================================================== *)
(** ** The analytics base URL *)
(* ===================================================================== *)

Lemma strip_trailing_slash_added (u : string) :
  strip_trailing_slash (u ++ "/") = u.
Proof.
  induction u as [ | c r IH ]; [ reflexivity | ].
  cbn [append strip_trailing_slash].
  destruct (r ++ "/" =? "")%string eqn:E.
  - apply String.eqb_eq in E. destruct r; discriminate.
  - cbn [andb]. now rewrite IH.
Qed.

Lemma strip_trailing_slash_cases (u : string) :
  strip_trailing_slash u = u \/ u = strip_trailing_slash u ++ "/".
Proof.
  induction u as [ | c r IH ]; [ now left | ].
  cbn [strip_trailing_slash].
  destruct (r =? "")%string eqn:E; cbn [andb].
  - apply String.eqb_eq in E. subst r.
    destruct (Ascii.eqb c "/") eqn:Ec.
    + apply Ascii.eqb_eq in Ec. subst c. now right.
    + now left.
  - destruct IH as [ -> | IH ]; [ now left | ].
    right. cbn [append]. now rewrite <- IH.
Qed.

(** X9.  One slash at the end of the analytics base URL makes no
    difference to the URL called: with base [u ++ "/"] the call goes to
    [u ++ path], and so it does with a base [u] that does not end in a
    slash.  Only one slash is dropped. *)
Theorem metabase_base_url_slash :
  forall (env : ProcessEnv) (u path : string) (m : Method) (data : JsValue),
    (METABASE_URL env = Some (u ++ "/") ->
     call_url (metabase_call env path m data) = u ++ path)
    /\ (METABASE_URL env = Some u ->
        (forall v : string, u <> v ++ "/") ->
        call_url (metabase_call env path m data) = u ++ path).
Proof.
  intros env u path m data. split.
  - intros H. cbn [metabase_call call_url]. rewrite H. cbn [env_or].
    destruct (u ++ "/" =? "")%string eqn:E.
    + apply String.eqb_eq in E. destruct u; discriminate.
    + now rewrite strip_trailing_slash_added.
  - intros H Hns. cbn [metabase_call call_url]. rewrite H. cbn [env_or].
    destruct (u =? "")%string eqn:E.
    + apply String.eqb_eq in E. now subst u.
    + destruct (strip_trailing_slash_cases u) as [ -> | Hu ]; [ reflexivity | ].
      now apply Hns in Hu.
Qed.

Lemma metabase_base_url_slash_witness :
  call_url (metabase_call env_sample "/api/card" POST JNull)
  = "https://metabase.example.com" ++ "/api/card"
  /\ call_url (metabase_call
                 {| METABASE_URL := Some "https://metabase.example.com//";
                    METABASE_API_KEY := Some "mb-key";
                    OPENAI_API_KEY := None;
                    ALLOWED_DATABASES_var := None;
                    NL_SQL_MODEL := None |} "/api/card" POST JNull)
     = "https://metabase.example.com/" ++ "/api/card".
Proof.
  split.
  - apply (proj1 (metabase_base_url_slash env_sample "https://metabase.example.com"
                    "/api/card" POST JNull)).
    reflexivity.
  - apply (proj1 (metabase_base_url_slash _ "https://metabase.example.com/"
                    "/api/card" POST JNull)).
    reflexivity.
Defined.

(* ===================================================================== *)
(** ** The system prompt *)
(* ===================================================================== *)

Lemma schema_hint_line_shape (schema_hint : JsValue) (line : string) :
  schema_hint_line schema_hint = Return line ->
  (truthy schema_hint = false /\ line = ""%string)
  \/ (truthy schema_hint = true
      /\ exists s, js_String schema_hint = Return s
                   /\ line = "SCHEMA HINT:" ++ nl ++ s).
Proof.
  unfold schema_hint_line. destruct (truthy schema_hint).
  - destruct (js_String schema_hint) as [ s | e ]; [ | discriminate ].
    cbn [obind]. intros H. injection H as <-. right. split; [ reflexivity | ].
    now exists s.
  - intros H. injection H as <-. now left.
Qed.

(** X10.  Whatever the hints, a system prompt that gets built opens
    with the fixed rules (the SELECT-only instruction among them); the
    hints only add lines after them.  With a falsy [schema_hint] and a
    falsy or empty [table_hints] the prompt is the fixed rules alone;
    with a truthy [schema_hint] and no table hints it is the rules, a
    line end, "SCHEMA HINT:", a line end and the hint's string form. *)
Theorem system_prompt_keeps_rules :
  forall (schema_hint table_hints : JsValue) (p : string),
    systemPrompt schema_hint table_hints = Return p ->
    (exists rest : string, p = rules_block ++ rest)
    /\ (truthy schema_hint = false ->
        truthy table_hints = false \/ table_hints = JArr [] ->
        p = rules_block)
    /\ (truthy schema_hint = true ->
        truthy table_hints = false \/ table_hints = JArr [] ->
        exists s, js_String schema_hint = Return s
                  /\ p = rules_block ++ nl ++ "SCHEMA HINT:" ++ nl ++ s).
Proof.
  intros schema_hint table_hints p. unfold systemPrompt.
  destruct (schema_hint_line schema_hint) as [ sl | e ] eqn:Hs; [ | discriminate ].
  destruct (table_hints_line table_hints) as [ tl | e ] eqn:Ht; [ | discriminate ].
  cbn [obind]. intros H. injection H as <-.
  assert (Hno : truthy table_hints = false \/ table_hints = JArr [] ->
                tl = ""%string).
  { intros [ Hf | -> ].
    - unfold table_hints_line in Ht. rewrite Hf in Ht. now injection Ht as <-.
    - cbn in Ht. now injection Ht as <-. }
  split; [ | split ].
  - cbn [filter nonempty String.eqb Ascii.eqb Bool.eqb negb].
    destruct (nonempty sl), (nonempty tl).
    + exists (nl ++ sl ++ nl ++ tl). reflexivity.
    + exists (nl ++ sl). reflexivity.
    + exists (nl ++ tl). reflexivity.
    + exists ""%string. reflexivity.
  - intros Hf Hth. rewrite (Hno Hth).
    apply schema_hint_line_shape in Hs. destruct Hs as [ [_ ->] | [Hs _] ].
    + reflexivity.
    + rewrite Hf in Hs. discriminate.
  - intros Htr Hth. rewrite (Hno Hth).
    apply schema_hint_line_shape in Hs. destruct Hs as [ [Hs _] | [_ [s [Hs ->]]] ].
    + rewrite Htr in Hs. discriminate.
    + exists s. split; [ assumption | reflexivity ].
Qed.

Lemma system_prompt_keeps_rules_witness :
  (exists rest : string,
      rules_block ++ nl ++ "SCHEMA HINT:" ++ nl ++ "invoices(id, total)"
      = rules_block ++ rest)
  /\ (truthy (JStr "invoices(id, total)") = false ->
      truthy JUndefined = false \/ JUndefined = JArr [] ->
      rules_block ++ nl ++ "SCHEMA HINT:" ++ nl ++ "invoices(id, total)"
      = rules_block)
  /\ (truthy (JStr "invoices(id, total)") = true ->
      truthy JUndefined = false \/ JUndefined = JArr [] ->
      exists s, js_String (JStr "invoices(id, total)") = Return s
                /\ rules_block ++ nl ++ "SCHEMA HINT:" ++ nl ++ "invoices(id, total)"
                   = rules_block ++ nl ++ "SCHEMA HINT:" ++ nl ++ s).
Proof.
  apply (system_prompt_keeps_rules (JStr "invoices(id, total)") JUndefined).
  vm_compute. reflexivity.
Defined.

(** X11.  A [table_hints] that is not an array but is truthy and has a
    truthy [length] (a non-empty string, say) has no [join] to call:
    on a request that passed the three checks and whose schema hint
    line could be built, the handler answers its 500 and calls nobody. *)
Theorem table_hints_must_be_array :
  forall (env : ProcessEnv) (rt : Runtime) (req : Request) (line : string),
    truthy (body_field req "text") = true ->
    truthy (body_field req "database_id") = true ->
    permits (ALLOWED_DATABASES env) (body_field req "database_id") ->
    env_set (OPENAI_API_KEY env) = true ->
    schema_hint_line (body_field req "schema_hint") = Return line ->
    truthy (body_field req "table_hints") = true ->
    truthy (prop (body_field req "table_hints") "length") = true ->
    (forall items : list JsValue, body_field req "table_hints" <> JArr items) ->
    run (natural_language_to_sql env req) rt
    = (Return (translate_failure rt (TypeErr (NotAFunction "table_hints.join"))), []).
Proof.
  intros env rt req line Ht Hd Hp Hk Hline Hth Hlen Harr.
  rewrite (translate_present env rt req Ht Hd Hp Hk).
  unfold request_prompt, systemPrompt. rewrite Hline. cbn [obind].
  unfold table_hints_line. rewrite Hth.
  rewrite js_get_not_nullish by now apply truthy_not_nullish.
  cbn [obind]. rewrite Hlen.
  destruct (body_field req "table_hints") as [ | | b | n | s | items | props ];
    try reflexivity.
  now elim (Harr items).
Qed.

Lemma table_hints_must_be_array_witness :
  run (natural_language_to_sql env_sample (hinted_request (JStr "invoices")))
      (rt_answering sample_completion)
  = (Return (translate_failure (rt_answering sample_completion)
               (TypeErr (NotAFunction "table_hints.join"))), []).
Proof.
  apply (table_hints_must_be_array env_sample (rt_answering sample_completion)
           (hinted_request (JStr "invoices")) ""%string);
    try reflexivity.
  intros items. discriminate.
Defined.

(** X12.  On a request that passed the three checks and whose prompt
    could be built, the translate handler issues the completion call,
    whatever the upstream then answers.  Its data names the model of
    NL_SQL_MODEL, or gpt-4.1-mini when that variable is unset or empty,
    and holds two messages: the system prompt, and the caller's [text]
    as it came as the user message. *)
Theorem translate_call_payload :
  forall (env : ProcessEnv) (rt : Runtime) (req : Request) (prompt : string),
    truthy (body_field req "text") = true ->
    truthy (body_field req "database_id") = true ->
    permits (ALLOWED_DATABASES env) (body_field req "database_id") ->
    env_set (OPENAI_API_KEY env) = true ->
    request_prompt req = Return prompt ->
    snd (run (natural_language_to_sql env req) rt) = [completion_call env prompt req]
    /\ prop (call_data (completion_call env prompt req)) "messages"
       = JArr [JObj [("role", JStr "system"); ("content", JStr prompt)];
               JObj [("role", JStr "user"); ("content", body_field req "text")]]
    /\ (env_set (NL_SQL_MODEL env) = false ->
        prop (call_data (completion_call env prompt req)) "model"
        = JStr "gpt-4.1-mini")
    /\ (forall model : string,
          NL_SQL_MODEL env = Some model -> model <> ""%string ->
          prop (call_data (completion_call env prompt req)) "model" = JStr model).
Proof.
  intros env rt req prompt Ht Hd Hp Hk Hprompt.
  split; [ | split; [ reflexivity | split ] ].
  - rewrite (translate_present env rt req Ht Hd Hp Hk), Hprompt.
    destruct (axios rt _); reflexivity.
  - intros Hm. cbn. unfold env_set in Hm. unfold env_or.
    destruct (NL_SQL_MODEL env) as [ model | ]; [ | reflexivity ].
    destruct (model =? "")%string; [ reflexivity | discriminate ].
  - intros model Hm Hne. cbn. rewrite Hm. cbn [env_or].
    apply String.eqb_neq in Hne. now rewrite Hne.
Qed.

Lemma translate_call_payload_witness :
  snd (run (natural_language_to_sql env_sample (translate_request (JNum 2)))
         (rt_rejecting sample_unreachable))
  = [completion_call env_sample sample_prompt (translate_request (JNum 2))]
  /\ prop (call_data (completion_call env_sample sample_prompt
                        (translate_request (JNum 2)))) "model"
     = JStr "gpt-4.1-mini".
Proof.
  assert (H := translate_call_payload env_sample (rt_rejecting sample_unreachable)
                 (translate_request (JNum 2)) sample_prompt
                 eq_refl eq_refl eq_refl eq_refl eq_refl).
  destruct H as (Hone & _ & Hdefault & _).
  exact (conj Hone (Hdefault eq_refl)).
Defined.

(* ===================================================================== *)
(** ** A created card that is not what was expected *)
(* ===================================================================== *)

(** X13.  The create handler does not check the card the upstream
    resolves with.  A card object with no [id] and no truthy
    [public_uuid] still gives a 200 answer, whose [question_id] is
    undefined and whose [url] is "/question/undefined"; a card that is
    [null] or [undefined] gives the handler's 500.  In both cases the
    creation call was issued. *)
Theorem create_question_unchecked_card :
  forall (env : ProcessEnv) (rt : Runtime) (req : Request) (card : JsValue),
    truthy (body_field req "name") = true ->
    truthy (body_field req "sql") = true ->
    truthy (body_field req "database_id") = true ->
    permits (ALLOWED_DATABASES env) (body_field req "database_id") ->
    metabase_configured env = true ->
    axios rt (creation_call env req) = Resolved card ->
    (forall props : list (string * JsValue),
        card = JObj props ->
        lookup "id" props = JUndefined ->
        truthy (lookup "public_uuid" props) = false ->
        run (create_question env req) rt
        = (Return (json 200 (JObj [("question_id", JUndefined);
                                   ("name", lookup "name" props);
                                   ("url", JStr "/question/undefined")])),
           [creation_call env req]))
    /\ (nullish card = true ->
        run (create_question env req) rt
        = (Return (json 500 (failure_body "create_question failed"
                               (JStr (error_text rt
                                        (TypeErr (CannotReadProperty card "id")))))),
           [creation_call env req])).
Proof.
  intros env rt req card Hn Hs Hd Hp Hc Hax.
  rewrite (create_question_present env rt req Hn Hs Hd).
  unfold permits in Hp. rewrite Hp, Hc. cbv zeta. rewrite Hax. split.
  - intros props -> Hid Hpub.
    unfold recover, question_ref, question_url. cbn [js_get obind].
    rewrite Hid, Hpub. reflexivity.
  - intros Hnull. destruct card; try discriminate; reflexivity.
Qed.

Lemma create_question_unchecked_card_witness :
  run (create_question env_sample (create_request (JNum 2)))
      (rt_answering (JObj [("message", JStr "ok")]))
  = (Return (json 200 (JObj [("question_id", JUndefined);
                             ("name", JUndefined);
                             ("url", JStr "/question/undefined")])),
     [creation_call env_sample (create_request (JNum 2))])
  /\ run (create_question env_sample (create_request (JNum 2))) (rt_answering JNull)
     = (Return (json 500 (failure_body "create_question failed" (JStr "TypeError"))),
        [creation_call env_sample (create_request (JNum 2))]).
Proof.
  split.
  - apply (proj1 (create_question_unchecked_card env_sample
                    (rt_answering (JObj [("message", JStr "ok")]))
                    (create_request (JNum 2)) (JObj [("message", JStr "ok")])
                    eq_refl eq_refl eq_refl eq_refl eq_refl eq_refl)
             [("message", JStr "ok")]);
      reflexivity.
  - apply (proj2 (create_question_unchecked_card env_sample (rt_answering JNull)
                    (create_request (JNum 2)) JNull
                    eq_refl eq_refl eq_refl eq_refl eq_refl eq_refl)).
    reflexivity.
Defined.

(* ===================================================================== *)
(** ** Table hints *)
(* ===================================================================== *)

Lemma join_with_strings (sep : string) (names : list string) :
  join_with js_String sep (map JStr names) = Return (String.concat sep names).
Proof.
  induction names as [ | a rest IH ]; [ reflexivity | ].
  cbn [map join_with join_elem nullish js_String obind].
  destruct rest as [ | b rest ]; [ reflexivity | ].
  cbn [map] in IH |- *. rewrite IH. reflexivity.
Qed.

(** X14.  With no schema hint and a non-empty array of table names as
    [table_hints], the system prompt is the fixed rules followed by one
    line, "TABLE HINTS: " and the names separated by a comma and a
    blank, in the order given. *)
Theorem system_prompt_table_hints :
  forall (schema_hint : JsValue) (names : list string),
    truthy schema_hint = false ->
    names <> [] ->
    systemPrompt schema_hint (JArr (map JStr names))
    = Return (rules_block ++ nl ++ "TABLE HINTS: " ++ String.concat ", " names).
Proof.
  intros schema_hint names Hs Hne. unfold systemPrompt, schema_hint_line.
  rewrite Hs. cbn [obind]. unfold table_hints_line.
  cbn [truthy js_get String.eqb Ascii.eqb Bool.eqb obind js_join].
  destruct names as [ | a rest ]; [ contradiction | ].
  cbn [map List.length]. rewrite Nat2Z.inj_succ.
  replace (Z.succ (Z.of_nat (List.length (map JStr rest))) =? 0) with false
    by (symmetry; apply Z.eqb_neq; lia).
  cbn [negb]. change (JStr a :: map JStr rest) with (map JStr (a :: rest)).
  rewrite join_with_strings. reflexivity.
Qed.

Lemma system_prompt_table_hints_witness :
  systemPrompt JUndefined (JArr (map JStr ["invoices"%string; "customers"%string]))
  = Return (rules_block ++ nl ++ "TABLE HINTS: "
            ++ String.concat ", " ["invoices"%string; "customers"%string]).
Proof.
  apply (system_prompt_table_hints JUndefined ["invoices"%string; "customers"%string]).
  - reflexivity.
  - discriminate.
Defined.

(* ===================================================================== *)
(** ** The analytics handlers and the language-model settings *)
(* ===================================================================== *)

(** X15.  The create and the fetch handler read neither the
    language-model key nor the model name: under two environments that
    agree on the analytics base URL, the analytics key and the
    allow-list variable they give the same answer and issue the same
    calls on every request. *)
Theorem analytics_handlers_ignore_language_model :
  forall (env1 env2 : ProcessEnv) (req : Request) (rt : Runtime)
         (tr : list OutCall),
    same_for_analytics env1 env2 ->
    create_question env1 req rt tr = create_question env2 req rt tr
    /\ get_question_results env1 req rt tr = get_question_results env2 req rt tr.
Proof.
  intros env1 env2 req rt tr (Hurl & Hkey & Hallow). split.
  - unfold create_question, ALLOWED_DATABASES, callMetabase, metabase_call.
    rewrite Hurl, Hkey, Hallow. reflexivity.
  - unfold get_question_results, callMetabase, metabase_call.
    rewrite Hurl, Hkey. reflexivity.
Qed.

Lemma analytics_handlers_ignore_language_model_witness :
  create_question env_sample (create_request (JNum 2)) (rt_answering sample_card) []
  = create_question env_no_openai (create_request (JNum 2))
      (rt_answering sample_card) []
  /\ get_question_results env_sample (create_request (JNum 2))
       (rt_answering sample_card) []
     = get_question_results env_no_openai (create_request (JNum 2))
         (rt_answering sample_card) [].
Proof.
  apply (analytics_handlers_ignore_language_model env_sample env_no_openai).
  repeat split.
Defined.
